(** * The command-line and report templates, embedded and verified

    A shallow embedding of the two scripts of the repository:

    - [templates/cli/cli_template.py]: [parse_derivatives_arg];
    - [templates/report/html_report_template.py]: [build_color_scheme],
      [generate_header], [generate_navigation],
      [generate_section_placeholder], [generate_footer] and
      [generate_html_report], with the two format templates
      [HTML_TEMPLATE] and [DEFAULT_CSS].

    Conventions of the embedding.

    - A Python [str] is a [string]: a sequence of 8-bit characters.  The
      case mappings of [str.lower] and [str.title] are modelled on the
      ASCII letters, every other character is left as it is.
    - A Python [dict] is an association list in insertion order, as the
      language defines it: assigning to a key that is present replaces
      the value in place, assigning to a new key appends it.
    - The dictionaries a caller passes in are objects of a store
      ([heap]); the renderer receives references to them, so that what
      it writes is visible to the caller afterwards.
    - A raised exception is the [Err] case of [result].
    - [datetime.now()] is a parameter of the functions that read the
      clock. *)

From Stdlib Require Import String Ascii List ZArith Lia Bool.
From Stdlib Require Import Numbers.DecimalString.
From stdpp Require Import base gmap strings.
Import ListNotations.

#[local] Arguments String.append !_ _ / : simpl nomatch.

(** ** Strings *)

(** The double quote character, as a one-character string. *)
Definition dq : string := String (ascii_of_nat 34) "".

(** [q s] is [s] between double quotes, as it appears in the HTML
    literals of the source. *)
Definition q (s : string) : string := dq +:+ s +:+ dq.

(** [p.startswith]-style test: [prefixb p s] holds when [s] starts
    with [p]. *)
Fixpoint prefixb (p s : string) : bool :=
  match p, s with
  | EmptyString, _ => true
  | String a p', String b s' => Ascii.eqb a b && prefixb p' s'
  | String _ _, EmptyString => false
  end.

(** Python's [sub in s] on strings. *)
Fixpoint containsb (sub s : string) : bool :=
  prefixb sub s
  || match s with
     | EmptyString => false
     | String _ s' => containsb sub s'
     end.

(** The same as a proposition: [s] is [pre +:+ sub +:+ post]. *)
Definition contains (sub s : string) : Prop :=
  exists pre post, s = pre +:+ sub +:+ post.

(** Number of positions of [s] at which [sub] starts. *)
Fixpoint count_occ_str (sub s : string) : nat :=
  (if prefixb sub s then 1 else 0)
  + match s with
    | EmptyString => 0
    | String _ s' => count_occ_str sub s'
    end.

Definition is_upper (c : ascii) : bool :=
  (65 <=? nat_of_ascii c) && (nat_of_ascii c <=? 90).

Definition is_lower (c : ascii) : bool :=
  (97 <=? nat_of_ascii c) && (nat_of_ascii c <=? 122).

Definition to_lower (c : ascii) : ascii :=
  if is_upper c then ascii_of_nat (nat_of_ascii c + 32) else c.

Definition to_upper (c : ascii) : ascii :=
  if is_lower c then ascii_of_nat (nat_of_ascii c - 32) else c.

(** [str.lower]. *)
Fixpoint str_lower (s : string) : string :=
  match s with
  | EmptyString => EmptyString
  | String c r => String (to_lower c) (str_lower r)
  end.

(** [str.title]: the first cased character after an uncased one is put
    in upper case, every other cased character in lower case.  The cased
    characters are the ASCII letters: the function is [str.title] on
    strings of ASCII characters, and the statements that speak of a
    title-cased text are about such strings. *)
Fixpoint title_from (previous_is_cased : bool) (s : string) : string :=
  match s with
  | EmptyString => EmptyString
  | String c r =>
      if is_upper c || is_lower c
      then String (if previous_is_cased then to_lower c else to_upper c)
                  (title_from true r)
      else String c (title_from false r)
  end.

Definition str_title (s : string) : string := title_from false s.

(** [str.join] with the empty separator. *)
Fixpoint join (l : list string) : string :=
  match l with
  | [] => EmptyString
  | s :: r => s +:+ join r
  end.

(** The text of [s] before the first [sep], and after it when there is
    one. *)
Fixpoint before (sep : ascii) (s : string) : string :=
  match s with
  | EmptyString => EmptyString
  | String c r => if Ascii.eqb c sep then EmptyString else String c (before sep r)
  end.

Fixpoint after (sep : ascii) (s : string) : option string :=
  match s with
  | EmptyString => None
  | String c r => if Ascii.eqb c sep then Some r else after sep r
  end.

(** [s.split(sep, 1)] for a one-character separator: one piece when
    [sep] does not occur, two otherwise. *)
Definition split1 (sep : ascii) (s : string) : list string :=
  match after sep s with
  | None => [s]
  | Some r => [before sep s; r]
  end.

(** ** Values, errors, dictionaries *)

(** The values a metadata or palette dictionary may hold ([Any] in the
    annotations): strings, integers, booleans and [None]. *)
Inductive pyval : Type :=
  | PStr (s : string)
  | PInt (z : Z)
  | PBool (b : bool)
  | PNone.

(** Truth value of an object, as [if value:] tests it. *)
Definition truthy (v : pyval) : bool :=
  match v with
  | PStr s => negb (String.eqb s "")
  | PInt z => negb (Z.eqb z 0)
  | PBool b => b
  | PNone => false
  end.

(** [str(v)], which is also what a replacement field with no format
    specification inserts. *)
Definition py_str (v : pyval) : string :=
  match v with
  | PStr s => s
  | PInt z => NilZero.string_of_int (Z.to_int z)
  | PBool true => "True"
  | PBool false => "False"
  | PNone => "None"
  end.

(** Truth value of an optional string argument: [None] and the empty
    string are false. *)
Definition str_truthy (o : option string) : bool :=
  match o with
  | Some s => negb (String.eqb s "")
  | None => false
  end.

(** [o or d] for an optional string. *)
Definition str_or (o : option string) (d : string) : string :=
  match o with
  | Some s => if String.eqb s "" then d else s
  | None => d
  end.

Inductive pyerror : Type :=
  | KeyError (key : string)
  | ValueError (msg : string).

Inductive result (A : Type) : Type :=
  | Ok (a : A)
  | Err (e : pyerror).

Arguments Ok {A} a.
Arguments Err {A} e.

Definition bind {A B : Type} (r : result A) (k : A -> result B) : result B :=
  match r with
  | Ok a => k a
  | Err e => Err e
  end.

Abbreviation dict V := (list (string * V)).

Section Dict.
Context {V : Type}.

(** [d.get(k)]. *)
Fixpoint dict_get (k : string) (d : dict V) : option V :=
  match d with
  | [] => None
  | (k', v) :: r => if String.eqb k' k then Some v else dict_get k r
  end.

(** [d[k] = v]. *)
Fixpoint dict_set (k : string) (v : V) (d : dict V) : dict V :=
  match d with
  | [] => [(k, v)]
  | (k', v') :: r =>
      if String.eqb k' k then (k', v) :: r else (k', v') :: dict_set k v r
  end.

(** [d.update(other)]: the items of [other] are assigned in order. *)
Definition dict_update (d other : dict V) : dict V :=
  fold_left (fun acc kv => dict_set (fst kv) (snd kv) acc) other d.

Definition dict_keys (d : dict V) : list string := map fst d.
End Dict.

(** ** [str.format] with keyword arguments

    The format string is read from left to right.  A doubled brace is a
    literal brace; the text between a single opening brace and the next
    closing brace is the name of a keyword argument, whose value is
    inserted with [py_str].  The templates of this repository use no
    other form of replacement field (no positional field, conversion or
    format specification), and none is modelled.  [field] is the name
    read so far when the scan is inside a replacement field. *)
Fixpoint format_from (kwargs : dict pyval) (field : option string) (s : string)
    : result string :=
  match s with
  | EmptyString =>
      match field with
      | None => Ok EmptyString
      | Some _ => Err (ValueError "expected '}' before end of string")
      end
  | String c r =>
      match field with
      | Some name =>
          if Ascii.eqb c "}" then
            match dict_get name kwargs with
            | None => Err (KeyError name)
            | Some v =>
                bind (format_from kwargs None r) (fun t => Ok (py_str v +:+ t))
            end
          else format_from kwargs (Some (name +:+ String c EmptyString)) r
      | None =>
          if Ascii.eqb c "{" then
            match r with
            | String c' r' =>
                if Ascii.eqb c' "{"
                then bind (format_from kwargs None r') (fun t => Ok (String "{" t))
                else format_from kwargs (Some EmptyString) r
            | EmptyString => Err (ValueError "Single '{' encountered in format string")
            end
          else if Ascii.eqb c "}" then
            match r with
            | String c' r' =>
                if Ascii.eqb c' "}"
                then bind (format_from kwargs None r') (fun t => Ok (String "}" t))
                else Err (ValueError "Single '}' encountered in format string")
            | EmptyString => Err (ValueError "Single '}' encountered in format string")
            end
          else bind (format_from kwargs None r) (fun t => Ok (String c t))
      end
  end.

(** [s.format] called with the items of [kwargs] as keyword arguments. *)
Definition format (s : string) (kwargs : dict pyval) : result string :=
  format_from kwargs None s.

(** The same scan, keeping only the structure of the format string:
    its literal characters and the names of its replacement fields.
    [None] when the format string is malformed. *)
Inductive segment : Type :=
  | Chr (c : ascii)
  | Field (name : string).

Fixpoint parse_from (field : option string) (s : string) : option (list segment) :=
  match s with
  | EmptyString =>
      match field with
      | None => Some []
      | Some _ => None
      end
  | String c r =>
      match field with
      | Some name =>
          if Ascii.eqb c "}"
          then option_map (cons (Field name)) (parse_from None r)
          else parse_from (Some (name +:+ String c EmptyString)) r
      | None =>
          if Ascii.eqb c "{" then
            match r with
            | String c' r' =>
                if Ascii.eqb c' "{"
                then option_map (cons (Chr "{")) (parse_from None r')
                else parse_from (Some EmptyString) r
            | EmptyString => None
            end
          else if Ascii.eqb c "}" then
            match r with
            | String c' r' =>
                if Ascii.eqb c' "}"
                then option_map (cons (Chr "}")) (parse_from None r')
                else None
            | EmptyString => None
            end
          else option_map (cons (Chr c)) (parse_from None r)
      end
  end.

(** The names a format string refers to, in order of occurrence. *)
Fixpoint segment_fields (segs : list segment) : list string :=
  match segs with
  | [] => []
  | Chr _ :: r => segment_fields r
  | Field name :: r => name :: segment_fields r
  end.

Definition template_fields (s : string) : list string :=
  match parse_from None s with
  | Some segs => segment_fields segs
  | None => []
  end.

(** Substitution over the parsed form. *)
Fixpoint render (kwargs : dict pyval) (segs : list segment) : result string :=
  match segs with
  | [] => Ok EmptyString
  | Chr c :: r => bind (render kwargs r) (fun t => Ok (String c t))
  | Field name :: r =>
      match dict_get name kwargs with
      | None => Err (KeyError name)
      | Some v => bind (render kwargs r) (fun t => Ok (py_str v +:+ t))
      end
  end.

(** ** [cli_template.py] *)

(** A [pathlib.Path] built from a string.  The normalisation that
    [pathlib] applies to its argument is not part of this repository
    and is not modelled: a path is the string it was built from. *)
Inductive PyPath : Type :=
  | Path (s : string).

(** The message of the [ValueError] raised on a token without [=]. *)
Definition invalid_derivatives_msg (derivative_arg : string) : string :=
  "Invalid derivatives argument: " +:+ derivative_arg +:+ ". "
  +:+ "Expected format: name=path (e.g., preprocessed=/path/to/data)".

(** The [for] loop of [parse_derivatives_arg], with the dictionary
    built so far. *)
Fixpoint parse_derivatives_loop (derivatives_list : list string)
    (derivatives_dict : dict PyPath) : result (dict PyPath) :=
  match derivatives_list with
  | [] => Ok derivatives_dict
  | derivative_arg :: rest =>
      if negb (containsb "=" derivative_arg)
      then Err (ValueError (invalid_derivatives_msg derivative_arg))
      else
        match split1 "=" derivative_arg with
        | [name; path] =>
            parse_derivatives_loop rest
              (dict_set name (Path path) derivatives_dict)
        | _ => Err (ValueError "not enough values to unpack (expected 2, got 1)")
        end
  end.

Definition parse_derivatives_arg (derivatives_list : list string)
    : result (dict PyPath) :=
  match derivatives_list with
  | [] => Ok []
  | _ => parse_derivatives_loop derivatives_list []
  end.

(** ** [html_report_template.py]: the two templates *)

Definition HTML_TEMPLATE : string :=
  "<!DOCTYPE html>
<html lang=" +:+ q "en" +:+ ">
<head>
    <meta charset=" +:+ q "UTF-8" +:+ ">
    <meta name=" +:+ q "viewport" +:+ " content=" +:+ q "width=device-width, initial-scale=1.0" +:+ ">
    <meta name=" +:+ q "author" +:+ " content=" +:+ q "{author}" +:+ ">
    <meta name=" +:+ q "description" +:+ " content=" +:+ q "{description}" +:+ ">
    <title>{title}</title>
    <style>
        {css_content}
    </style>
</head>
<body>
    <div class=" +:+ q "report-container" +:+ ">
        {header_html}
        {navigation_html}
        {main_content_html}
        {footer_html}
    </div>
    <script>
        {javascript_content}
    </script>
</body>
</html>
".

Definition DEFAULT_CSS : string :=
  "
    * {{
        margin: 0;
        padding: 0;
        box-sizing: border-box;
    }}

    body {{
        font-family: {font_family};
        line-height: 1.6;
        color: {text_color};
        background-color: {bg_color};
    }}

    .report-container {{
        max-width: 1200px;
        margin: 0 auto;
        padding: 20px;
    }}

    header {{
        background: linear-gradient(135deg, {header_bg_start}, {header_bg_end});
        color: white;
        padding: 40px 20px;
        border-radius: 8px;
        margin-bottom: 30px;
        box-shadow: 0 2px 10px rgba(0, 0, 0, 0.1);
    }}

    header h1 {{
        font-size: 2.5em;
        margin-bottom: 10px;
    }}

    header .subtitle {{
        font-size: 1.1em;
        opacity: 0.95;
    }}

    .metadata {{
        display: grid;
        grid-template-columns: repeat(auto-fit, minmax(200px, 1fr));
        gap: 15px;
        margin-top: 20px;
        font-size: 0.9em;
    }}

    .metadata-item {{
        background: rgba(0, 0, 0, 0.1);
        padding: 10px;
        border-radius: 4px;
    }}

    .metadata-label {{
        font-weight: bold;
        opacity: 0.9;
    }}

    nav {{
        background: {nav_bg};
        padding: 0;
        margin-bottom: 30px;
        border-radius: 4px;
        box-shadow: 0 1px 3px rgba(0, 0, 0, 0.1);
        position: sticky;
        top: 0;
        z-index: 100;
    }}

    nav ul {{
        list-style: none;
        display: flex;
        flex-wrap: wrap;
    }}

    nav li {{
        flex: 1;
        min-width: 120px;
    }}

    nav a {{
        display: block;
        padding: 15px 20px;
        color: {nav_link_color};
        text-decoration: none;
        border-bottom: 3px solid transparent;
        transition: all 0.3s ease;
    }}

    nav a:hover {{
        border-bottom-color: {accent_color};
        background: rgba(0, 0, 0, 0.05);
    }}

    .section {{
        margin-bottom: 40px;
        padding: 20px;
        background: {section_bg};
        border-radius: 8px;
        box-shadow: 0 1px 3px rgba(0, 0, 0, 0.1);
    }}

    .section h2 {{
        color: {heading_color};
        font-size: 1.8em;
        margin-bottom: 20px;
        border-bottom: 2px solid {accent_color};
        padding-bottom: 10px;
    }}

    .section h3 {{
        color: {heading_color};
        font-size: 1.3em;
        margin-top: 20px;
        margin-bottom: 10px;
    }}

    .metrics-grid {{
        display: grid;
        grid-template-columns: repeat(auto-fit, minmax(250px, 1fr));
        gap: 20px;
        margin: 20px 0;
    }}

    .metric-card {{
        background: {card_bg};
        border: 1px solid {border_color};
        border-radius: 8px;
        padding: 20px;
        text-align: center;
        transition: transform 0.2s ease;
    }}

    .metric-card:hover {{
        transform: translateY(-5px);
        box-shadow: 0 5px 15px rgba(0, 0, 0, 0.15);
    }}

    .metric-value {{
        font-size: 2.2em;
        font-weight: bold;
        color: {accent_color};
        margin: 10px 0;
    }}

    .metric-label {{
        font-size: 0.95em;
        color: {muted_color};
        text-transform: uppercase;
        letter-spacing: 1px;
    }}

    .metric-unit {{
        font-size: 0.8em;
        color: {muted_color};
    }}

    .visualization {{
        background: {chart_bg};
        border: 1px solid {border_color};
        border-radius: 6px;
        padding: 20px;
        margin: 20px 0;
        text-align: center;
    }}

    .visualization img {{
        max-width: 100%;
        height: auto;
        border-radius: 4px;
    }}

    table {{
        width: 100%;
        border-collapse: collapse;
        margin: 20px 0;
    }}

    thead {{
        background: {table_header_bg};
        color: white;
    }}

    th {{
        padding: 12px;
        text-align: left;
        font-weight: 600;
    }}

    td {{
        padding: 12px;
        border-bottom: 1px solid {border_color};
    }}

    tbody tr:hover {{
        background: {table_hover_bg};
    }}

    .status-badge {{
        display: inline-block;
        padding: 5px 12px;
        border-radius: 20px;
        font-size: 0.85em;
        font-weight: bold;
    }}

    .status-success {{
        background: #d4edda;
        color: #155724;
    }}

    .status-warning {{
        background: #fff3cd;
        color: #856404;
    }}

    .status-error {{
        background: #f8d7da;
        color: #721c24;
    }}

    .status-info {{
        background: #d1ecf1;
        color: #0c5460;
    }}

    .tag {{
        display: inline-block;
        background: {tag_bg};
        color: {tag_color};
        padding: 5px 10px;
        border-radius: 4px;
        margin: 5px 5px 5px 0;
        font-size: 0.85em;
    }}

    footer {{
        background: {footer_bg};
        color: {footer_text};
        padding: 30px 20px;
        text-align: center;
        border-top: 1px solid {border_color};
        margin-top: 40px;
        border-radius: 0 0 8px 8px;
    }}

    footer p {{
        margin: 5px 0;
        font-size: 0.9em;
    }}

    .footer-links {{
        margin-top: 15px;
    }}

    .footer-links a {{
        color: {accent_color};
        text-decoration: none;
        margin: 0 10px;
    }}

    .footer-links a:hover {{
        text-decoration: underline;
    }}

    @media (max-width: 768px) {{
        header h1 {{
            font-size: 1.8em;
        }}

        .metrics-grid {{
            grid-template-columns: 1fr;
        }}

        nav ul {{
            flex-direction: column;
        }}

        nav li {{
            min-width: 100%;
        }}

        .metadata {{
            grid-template-columns: 1fr;
        }}
    }}
".

(** The placeholder script of [generate_html_report]. *)
Definition javascript_content : string :=
  "
    document.addEventListener('DOMContentLoaded', function() {
        console.log('Report loaded successfully');
        // Add interactive features here
    });
    ".

(** ** [build_color_scheme] *)

Definition light_scheme : dict pyval :=
  [ ("bg_color", PStr "#ffffff");
    ("text_color", PStr "#333333");
    ("header_bg_start", PStr "#667eea");
    ("header_bg_end", PStr "#764ba2");
    ("nav_bg", PStr "#f8f9fa");
    ("nav_link_color", PStr "#333333");
    ("accent_color", PStr "#667eea");
    ("section_bg", PStr "#f9f9f9");
    ("card_bg", PStr "#ffffff");
    ("heading_color", PStr "#2d3748");
    ("muted_color", PStr "#718096");
    ("border_color", PStr "#e2e8f0");
    ("chart_bg", PStr "#ffffff");
    ("table_header_bg", PStr "#667eea");
    ("table_hover_bg", PStr "#f7fafc");
    ("tag_bg", PStr "#edf2f7");
    ("tag_color", PStr "#2d3748");
    ("footer_bg", PStr "#2d3748");
    ("footer_text", PStr "#ffffff");
    ("font_family", PStr "'Segoe UI', Tahoma, Geneva, Verdana, sans-serif") ].

Definition dark_scheme : dict pyval :=
  [ ("bg_color", PStr "#1a202c");
    ("text_color", PStr "#e2e8f0");
    ("header_bg_start", PStr "#5a67d8");
    ("header_bg_end", PStr "#6b46c1");
    ("nav_bg", PStr "#2d3748");
    ("nav_link_color", PStr "#e2e8f0");
    ("accent_color", PStr "#63b3ed");
    ("section_bg", PStr "#2d3748");
    ("card_bg", PStr "#374151");
    ("heading_color", PStr "#e2e8f0");
    ("muted_color", PStr "#a0aec0");
    ("border_color", PStr "#4a5568");
    ("chart_bg", PStr "#2d3748");
    ("table_header_bg", PStr "#5a67d8");
    ("table_hover_bg", PStr "#374151");
    ("tag_bg", PStr "#4a5568");
    ("tag_color", PStr "#e2e8f0");
    ("footer_bg", PStr "#1a202c");
    ("footer_text", PStr "#a0aec0");
    ("font_family", PStr "'Segoe UI', Tahoma, Geneva, Verdana, sans-serif") ].

Definition minimal_scheme : dict pyval :=
  [ ("bg_color", PStr "#fafafa");
    ("text_color", PStr "#444444");
    ("header_bg_start", PStr "#000000");
    ("header_bg_end", PStr "#333333");
    ("nav_bg", PStr "#ffffff");
    ("nav_link_color", PStr "#444444");
    ("accent_color", PStr "#000000");
    ("section_bg", PStr "#ffffff");
    ("card_bg", PStr "#ffffff");
    ("heading_color", PStr "#000000");
    ("muted_color", PStr "#999999");
    ("border_color", PStr "#dddddd");
    ("chart_bg", PStr "#ffffff");
    ("table_header_bg", PStr "#333333");
    ("table_hover_bg", PStr "#f5f5f5");
    ("tag_bg", PStr "#f0f0f0");
    ("tag_color", PStr "#333333");
    ("footer_bg", PStr "#333333");
    ("footer_text", PStr "#ffffff");
    ("font_family", PStr "'Georgia', serif") ].

Definition schemes : dict (dict pyval) :=
  [ ("light", light_scheme); ("dark", dark_scheme); ("minimal", minimal_scheme) ].

(** ** The clock *)

(** What [datetime.now()] returns. *)
Record datetime : Type := {
  year : nat;
  month : nat;
  day : nat;
  hour : nat;
  minute : nat;
  second : nat
}.

(** [str(n)] for a natural number. *)
Definition str_nat (n : nat) : string := NilZero.string_of_uint (Nat.to_uint n).

(** Decimal digits of [n] padded with zeros on the left to [width]
    characters. *)
Fixpoint zeros (k : nat) : string :=
  match k with
  | O => EmptyString
  | S k' => String "0" (zeros k')
  end.

Definition zero_pad (width n : nat) : string :=
  zeros (width - String.length (str_nat n)) +:+ str_nat n.

(** [t.strftime('%Y-%m-%d %H:%M:%S')]: the year on four digits, the
    other fields on two. *)
Definition strftime (t : datetime) : string :=
  zero_pad 4 (year t) +:+ "-" +:+ zero_pad 2 (month t) +:+ "-"
  +:+ zero_pad 2 (day t) +:+ " " +:+ zero_pad 2 (hour t) +:+ ":"
  +:+ zero_pad 2 (minute t) +:+ ":" +:+ zero_pad 2 (second t).

(** ** [generate_header] *)

(** One entry of the metadata block. *)
Definition metadata_item (key : string) (value : pyval) : string :=
  "<div class=" +:+ q "metadata-item" +:+ "><span class=" +:+ q "metadata-label" +:+ ">" +:+ key +:+ ":</span> " +:+ py_str value +:+ "</div>".

(** The [items] list: one entry per item whose value is true, in the
    order of the dictionary. *)
Fixpoint metadata_items (metadata : dict pyval) : list string :=
  match metadata with
  | [] => []
  | (key, value) :: r =>
      if truthy value
      then metadata_item key value :: metadata_items r
      else metadata_items r
  end.

Definition generate_header (title : string) (description : option string)
    (metadata : dict pyval) : string :=
  let metadata_html :=
    match metadata with
    | [] => EmptyString
    | _ :: _ =>
        match metadata_items metadata with
        | [] => EmptyString
        | items => "<div class=" +:+ q "metadata" +:+ ">" +:+ join items +:+ "</div>"
        end
    end in
  let desc_html :=
    match description with
    | Some d =>
        if String.eqb d "" then EmptyString
        else "<p class=" +:+ q "subtitle" +:+ ">" +:+ d +:+ "</p>"
    | None => EmptyString
    end in
  "
    <header>
        <h1>" +:+ title +:+ "</h1>
        " +:+ desc_html +:+ "
        " +:+ metadata_html +:+ "
    </header>
    ".

(** ** [generate_navigation] *)

Definition nav_item (section : string) : string :=
  "<li><a href=" +:+ q ("#" +:+ section) +:+ ">" +:+ str_title section +:+ "</a></li>".

Definition generate_navigation (sections : list string) : string :=
  let nav_items := join (map nav_item sections) in
  "
    <nav>
        <ul>
            " +:+ nav_items +:+ "
        </ul>
    </nav>
    ".

(** ** [generate_section_placeholder] *)

Definition generate_section_placeholder (now : datetime) (section_name : string)
    : string :=
  let section_id := str_lower section_name in
  if String.eqb section_id "summary" then
    "
    <section id=" +:+ q section_id +:+ " class=" +:+ q "section" +:+ ">
        <h2>Summary</h2>
        <p>This section provides an overview of the analysis results and key findings.</p>
        <div class=" +:+ q "metrics-grid" +:+ ">
            <div class=" +:+ q "metric-card" +:+ ">
                <div class=" +:+ q "metric-label" +:+ ">Status</div>
                <div class=" +:+ q "metric-value" +:+ "><span class=" +:+ q "status-badge status-success" +:+ ">Complete</span></div>
            </div>
            <div class=" +:+ q "metric-card" +:+ ">
                <div class=" +:+ q "metric-label" +:+ ">Processing Time</div>
                <div class=" +:+ q "metric-value" +:+ ">2<span class=" +:+ q "metric-unit" +:+ ">h 15m</span></div>
            </div>
            <div class=" +:+ q "metric-card" +:+ ">
                <div class=" +:+ q "metric-label" +:+ ">Data Points</div>
                <div class=" +:+ q "metric-value" +:+ ">10,240</div>
            </div>
        </div>
    </section>
    "
  else if String.eqb section_id "metrics" then
    "
    <section id=" +:+ q section_id +:+ " class=" +:+ q "section" +:+ ">
        <h2>Analysis Metrics</h2>
        <p>Quantitative measurements and key performance indicators.</p>
        <div class=" +:+ q "metrics-grid" +:+ ">
            <div class=" +:+ q "metric-card" +:+ ">
                <div class=" +:+ q "metric-label" +:+ ">Metric One</div>
                <div class=" +:+ q "metric-value" +:+ ">0.92</div>
            </div>
            <div class=" +:+ q "metric-card" +:+ ">
                <div class=" +:+ q "metric-label" +:+ ">Metric Two</div>
                <div class=" +:+ q "metric-value" +:+ ">87.5<span class=" +:+ q "metric-unit" +:+ ">%</span></div>
            </div>
            <div class=" +:+ q "metric-card" +:+ ">
                <div class=" +:+ q "metric-label" +:+ ">Metric Three</div>
                <div class=" +:+ q "metric-value" +:+ ">156<span class=" +:+ q "metric-unit" +:+ ">ms</span></div>
            </div>
            <div class=" +:+ q "metric-card" +:+ ">
                <div class=" +:+ q "metric-label" +:+ ">Metric Four</div>
                <div class=" +:+ q "metric-value" +:+ ">p &lt; 0.001</div>
            </div>
        </div>
    </section>
    "
  else if String.eqb section_id "visualizations" then
    "
    <section id=" +:+ q section_id +:+ " class=" +:+ q "section" +:+ ">
        <h2>Visualizations</h2>
        <p>Graphical representations of analysis results and trends.</p>
        <div class=" +:+ q "visualization" +:+ ">
            <p style=" +:+ q "color: #999; font-size: 1.2em; padding: 40px;" +:+ ">
                [Chart/Graph/Plot Placeholder]
            </p>
        </div>
        <div class=" +:+ q "visualization" +:+ ">
            <p style=" +:+ q "color: #999; font-size: 1.2em; padding: 40px;" +:+ ">
                [Visualization Placeholder]
            </p>
        </div>
    </section>
    "
  else if String.eqb section_id "quality" then
    "
    <section id=" +:+ q section_id +:+ " class=" +:+ q "section" +:+ ">
        <h2>Quality Assessment</h2>
        <p>Data quality evaluation and validation results.</p>
        <table>
            <thead>
                <tr>
                    <th>Check</th>
                    <th>Result</th>
                    <th>Details</th>
                </tr>
            </thead>
            <tbody>
                <tr>
                    <td>Data Completeness</td>
                    <td><span class=" +:+ q "status-badge status-success" +:+ ">Pass</span></td>
                    <td>100% of expected data present</td>
                </tr>
                <tr>
                    <td>Value Range Validation</td>
                    <td><span class=" +:+ q "status-badge status-success" +:+ ">Pass</span></td>
                    <td>All values within expected ranges</td>
                </tr>
                <tr>
                    <td>Format Compliance</td>
                    <td><span class=" +:+ q "status-badge status-warning" +:+ ">Warning</span></td>
                    <td>Minor formatting inconsistencies detected</td>
                </tr>
            </tbody>
        </table>
    </section>
    "
  else if String.eqb section_id "metadata" then
    "
    <section id=" +:+ q section_id +:+ " class=" +:+ q "section" +:+ ">
        <h2>Metadata</h2>
        <p>Information about the analysis execution and configuration.</p>
        <table>
            <thead>
                <tr>
                    <th>Parameter</th>
                    <th>Value</th>
                </tr>
            </thead>
            <tbody>
                <tr>
                    <td>Generated Date</td>
                    <td>" +:+ strftime now +:+ "</td>
                </tr>
                <tr>
                    <td>Generator Version</td>
                    <td>1.0.0</td>
                </tr>
                <tr>
                    <td>Input Source</td>
                    <td>Analysis output directory</td>
                </tr>
                <tr>
                    <td>Configuration</td>
                    <td>Default template</td>
                </tr>
            </tbody>
        </table>
    </section>
    "
  else EmptyString.

(** ** [generate_footer] *)

Definition tag_element (tag : string) : string :=
  "<span class=" +:+ q "tag" +:+ ">" +:+ tag +:+ "</span>".

Definition generate_footer (now : datetime) (tags : option (list string)) : string :=
  let tags_html :=
    match tags with
    | Some ((_ :: _) as tags) =>
        let tag_elements := join (map tag_element tags) in
        "
        <p>
            <strong>Tags:</strong><br>
            " +:+ tag_elements +:+ "
        </p>
        "
    | _ => EmptyString
    end in
  "
    <footer>
        " +:+ tags_html +:+ "
        <p>&copy; " +:+ str_nat (year now) +:+ " Analysis Report. All rights reserved.</p>
        <div class=" +:+ q "footer-links" +:+ ">
            <a href=" +:+ q "#" +:+ ">Documentation</a>
            <a href=" +:+ q "#" +:+ ">Report Issue</a>
            <a href=" +:+ q "#" +:+ ">Contact Support</a>
        </div>
    </footer>
    ".

(** [schemes.get(theme, schemes["light"])]: the palette of the theme,
    the light one for a name that is not a key of [schemes]. *)
Definition build_color_scheme (theme : string) : dict pyval :=
  match dict_get theme schemes with
  | Some scheme => scheme
  | None => light_scheme
  end.

(** ** The store of the caller's dictionaries *)

Abbreviation loc := nat.

Abbreviation heap := (gmap loc (dict pyval)).

(** The dictionary a reference points to.  A reference held by a
    running program always points to an object; the empty dictionary
    stands for the others. *)
Definition deref (h : heap) (l : loc) : dict pyval :=
  default [] (h !! l).

(** A new object. *)
Definition alloc (d : dict pyval) (h : heap) : loc * heap :=
  let l := fresh (dom h) in (l, <[l := d]> h).

(** ** [generate_html_report]

    [metadata] and [custom_colors] are optional references into the
    store.  The palette [colors] is a dictionary that
    [build_color_scheme] creates anew at each call and that nothing else
    refers to: it is a local value.  The result is the returned string
    (or the exception raised) and the store after the call.  The
    statements of the function body are named one by one. *)

(** [if sections is None: sections = [summary, metrics, visualizations]]. *)
Definition default_sections : list string :=
  ["summary"; "metrics"; "visualizations"].

Definition resolve_sections (sections : option (list string)) : list string :=
  match sections with
  | None => default_sections
  | Some l => l
  end.

(** [if metadata is None: metadata = {}]. *)
Definition resolve_metadata (metadata : option loc) (h : heap) : loc * heap :=
  match metadata with
  | None => alloc [] h
  | Some l => (l, h)
  end.

(** [if author: metadata["Author"] = author]. *)
Definition set_author (author : option string) (metadata : loc) (h : heap) : heap :=
  match author with
  | Some a =>
      if String.eqb a "" then h
      else <[metadata := dict_set "Author" (PStr a) (deref h metadata)]> h
  | None => h
  end.

(** [colors = build_color_scheme(theme)] followed by
    [if custom_colors: colors.update(custom_colors)]. *)
Definition merge_colors (theme : string) (custom_colors : option loc) (h : heap)
    : dict pyval :=
  let colors := build_color_scheme theme in
  match custom_colors with
  | Some c =>
      match deref h c with
      | [] => colors
      | (_ :: _) as other => dict_update colors other
      end
  | None => colors
  end.

(** The keyword arguments of [HTML_TEMPLATE.format]. *)
Definition page_kwargs (title author description css_content header_html
    navigation_html main_content_html footer_html : string) : dict pyval :=
  [ ("title", PStr title);
    ("author", PStr author);
    ("description", PStr description);
    ("css_content", PStr css_content);
    ("header_html", PStr header_html);
    ("navigation_html", PStr navigation_html);
    ("main_content_html", PStr main_content_html);
    ("footer_html", PStr footer_html);
    ("javascript_content", PStr javascript_content) ].

Definition generate_html_report (now : datetime) (title : string)
    (description : option string) (sections : option (list string))
    (theme : string) (author : option string) (tags : option (list string))
    (metadata custom_colors : option loc) (h : heap) : result string * heap :=
  let sections := resolve_sections sections in
  let '(metadata, h) := resolve_metadata metadata h in
  let h := set_author author metadata h in
  let colors := merge_colors theme custom_colors h in
  let html :=
    bind (format DEFAULT_CSS colors) (fun css_content =>
      let header_html := generate_header title description (deref h metadata) in
      let navigation_html := generate_navigation sections in
      let main_content_html :=
        join (map (generate_section_placeholder now) sections) in
      let footer_html := generate_footer now tags in
      format HTML_TEMPLATE
        (page_kwargs title (str_or author "Analysis Pipeline")
           (str_or description "Generated analysis report")
           css_content header_html navigation_html main_content_html
           footer_html)) in
  (html, h).

(** ** [main] of [cli_template.py]

    The body of [main] from the parsed arguments on: [args] is what
    [parser.parse_args()] returned, of which the body reads four
    attributes.  The lines given to [print] are collected with the
    stream they go to; the second component is the exit status of the
    process, 0 when [main] returns.  [KeyboardInterrupt], which the body
    also catches, comes from outside the program and is not modelled. *)
Record cli_args : Type := {
  input_dir : PyPath;
  output_dir : PyPath;
  analysis_level : string;
  derivatives : option (list string)
}.

Inductive stream : Type :=
  | Stdout
  | Stderr.

(** [str(p)] for a path. *)
Definition path_str (p : PyPath) : string :=
  match p with
  | Path s => s
  end.

(** [str(e)] for an exception: the message of a [ValueError], the key
    between quotes for a [KeyError]. *)
Definition exception_str (e : pyerror) : string :=
  match e with
  | ValueError msg => msg
  | KeyError key => "'" +:+ key +:+ "'"
  end.

Definition cli_main (args : cli_args) : list (stream * string) * nat :=
  let parsed :=
    match derivatives args with
    | Some ((_ :: _) as l) =>
        bind (parse_derivatives_arg l) (fun d => Ok (Some d))
    | _ => Ok None
    end in
  match parsed with
  | Ok _ =>
      if String.eqb (analysis_level args) "participant"
      then ([ (Stdout, "Analysis pipeline would run here");
              (Stdout, "  Input: " +:+ path_str (input_dir args));
              (Stdout, "  Output: " +:+ path_str (output_dir args));
              (Stdout, "  Level: " +:+ analysis_level args) ], 0)
      else ([ (Stderr, "Unknown analysis level: " +:+ analysis_level args) ], 1)
  | Err e => ([ (Stderr, "Error: " +:+ exception_str e) ], 1)
  end.

(** ** Vocabulary of the statements *)

(** A format string is well formed when the scan reaches its end
    outside a replacement field and meets no single brace. *)
Definition well_formed (s : string) : bool :=
  match parse_from None s with
  | Some _ => true
  | None => false
  end.

(** The keys the style sheet template refers to, without repetition. *)
Definition css_keys : list string :=
  [ "font_family"; "text_color"; "bg_color"; "header_bg_start"; "header_bg_end";
    "nav_bg"; "nav_link_color"; "accent_color"; "section_bg"; "heading_color";
    "card_bg"; "border_color"; "muted_color"; "chart_bg"; "table_header_bg";
    "table_hover_bg"; "tag_bg"; "tag_color"; "footer_bg"; "footer_text" ].

Definition has_keys (keys : list string) (d : dict pyval) : Prop :=
  Forall (fun k => is_Some (dict_get k d)) keys.

(** The store after a call. *)
Definition call_store (author : option string) (metadata : option loc) (h : heap)
    : heap :=
  let '(m, h0) := resolve_metadata metadata h in set_author author m h0.

(** The metadata dictionary before the call: the caller's, or the new
    empty one. *)
Definition initial_metadata (metadata : option loc) (h : heap) : dict pyval :=
  match metadata with
  | Some l => deref h l
  | None => []
  end.

(** What the assignment of the author makes of a dictionary. *)
Definition author_entry (author : option string) (d : dict pyval) : dict pyval :=
  match author with
  | Some a => if String.eqb a "" then d else dict_set "Author" (PStr a) d
  | None => d
  end.

(** A reference of the caller points to an object of the store. *)
Definition live (h : heap) (o : option loc) : Prop :=
  match o with
  | Some l => is_Some (h !! l)
  | None => True
  end.

(** A clock reading for the closed examples. *)
Definition sample_now : datetime :=
  {| year := 2024; month := 1; day := 15; hour := 9; minute := 30; second := 5 |}.

(** The section names the renderer has a fragment for. *)
Definition recognized_sections : list string :=
  ["summary"; "metrics"; "visualizations"; "quality"; "metadata"].

(** The override dictionary of the claim. *)
Definition accent_override : dict pyval := [("accent_color", PStr "#123456")].

(** The style sheet of the light palette under that override. *)
Definition accent_css : string :=
  match format DEFAULT_CSS (dict_update light_scheme accent_override) with
  | Ok css => css
  | Err _ => ""
  end.

(** The token [name=path] of an entry of a derivatives dictionary. *)
Definition derivative_token (entry : string * PyPath) : string :=
  fst entry +:+ "=" +:+ path_str (snd entry).

(** The elements of [l] that are not in [seen], each at its first
    occurrence. *)
Fixpoint first_occurrences (seen l : list string) : list string :=
  match l with
  | [] => []
  | x :: r =>
      if existsb (String.eqb x) seen
      then first_occurrences seen r
      else x :: first_occurrences (x :: seen) r
  end.

(** The literal characters of a string, as segments. *)
Fixpoint lit (s : string) : list segment :=
  match s with
  | EmptyString => []
  | String c r => Chr c :: lit r
  end.

Definition segment_eqb (a b : segment) : bool :=
  match a, b with
  | Chr c, Chr c' => Ascii.eqb c c'
  | Field n, Field n' => String.eqb n n'
  | _, _ => false
  end.

(** [pat] occurs in [segs] as a run of consecutive segments. *)
Fixpoint seg_prefixb (pat segs : list segment) : bool :=
  match pat, segs with
  | [], _ => true
  | a :: pat', b :: segs' => segment_eqb a b && seg_prefixb pat' segs'
  | _ :: _, [] => false
  end.

Fixpoint seg_containsb (pat segs : list segment) : bool :=
  seg_prefixb pat segs
  || match segs with
     | [] => false
     | _ :: segs' => seg_containsb pat segs'
     end.

(** A replacement field between two literal texts of a template. *)
Definition field_in_context (before_text name after_text : string) : list segment :=
  lit before_text ++ Field name :: lit after_text.

(** The tokens of the derivatives option, none when it was not given. *)
Definition derivative_tokens (args : cli_args) : list string :=
  match derivatives args with
  | Some l => l
  | None => []
  end.

(** The template [s] has the replacement field [name] right between
    the literal texts [before_text] and [after_text]. *)
Definition template_has (s before_text name after_text : string) : bool :=
  match parse_from None s with
  | Some segs => seg_containsb (field_in_context before_text name after_text) segs
  | None => false
  end.

(** The template [s] has the run of consecutive segments [pat]. *)
Definition template_has_run (s : string) (pat : list segment) : bool :=
  match parse_from None s with
  | Some segs => seg_containsb pat segs
  | None => false
  end.

(** The text between two fragments of the page body in [HTML_TEMPLATE]:
    the end of the line and the indentation of the next. *)
Definition body_indent : string := "
        ".

(** The four fragments of the page body as [HTML_TEMPLATE] lays them
    out, one to a line with nothing else between them. *)
Definition body_run : list segment :=
  Field "header_html" :: lit body_indent
  ++ Field "navigation_html" :: lit body_indent
  ++ Field "main_content_html" :: lit body_indent
  ++ [Field "footer_html"].

(** Every character of [s] is an ASCII character.  On such strings
    [str_title] and [str_lower] are [str.title] and [str.lower]; outside
    them the case mappings of Python follow the Unicode tables, which
    are not part of this development. *)
Fixpoint ascii_only (s : string) : bool :=
  match s with
  | EmptyString => true
  | String c r => (nat_of_ascii c <? 128) && ascii_only r
  end.

(** The opening of the navigation link of a section name: the list
    item and the anchor with its target, up to the link text. *)
Definition nav_link_open (section : string) : string :=
  "<li><a href=" +:+ q ("#" +:+ section) +:+ ">".

(** * Properties *)

(** The two templates are long literals: the proofs evaluate them with
    the virtual machine only, never by simplification. *)
Opaque DEFAULT_CSS HTML_TEMPLATE.
Arguments format _ _ : simpl never.

(** ** Strings *)

Lemma str_app_assoc (a b c : string) : (a +:+ b) +:+ c = a +:+ b +:+ c.
Proof.
  induction a as [|x a IH]; simpl; [reflexivity | now rewrite IH].
Qed.

Lemma str_app_nil_r (a : string) : a +:+ "" = a.
Proof.
  induction a as [|x a IH]; simpl; [reflexivity | now rewrite IH].
Qed.

Lemma prefixb_app (p s : string) : prefixb p (p +:+ s) = true.
Proof.
  induction p as [|x p IH]; simpl; [reflexivity |].
  now rewrite Ascii.eqb_refl, IH.
Qed.

Lemma prefixb_true (p s : string) :
  prefixb p s = true -> exists post, s = p +:+ post.
Proof.
  revert s; induction p as [|x p IH]; intros s H.
  - exists s; reflexivity.
  - destruct s as [|y s]; simpl in H; [discriminate |].
    apply andb_true_iff in H as [Hxy Hp].
    apply Ascii.eqb_eq in Hxy; subst y.
    destruct (IH _ Hp) as [post ->].
    exists post; reflexivity.
Qed.

Lemma contains_refl (s : string) : contains s s.
Proof.
  exists "", ""; simpl; now rewrite str_app_nil_r.
Qed.

Lemma contains_app_l (sub a b : string) : contains sub a -> contains sub (a +:+ b).
Proof.
  intros (pre & post & ->).
  exists pre, (post +:+ b).
  now rewrite !str_app_assoc.
Qed.

Lemma contains_app_r (sub a b : string) : contains sub b -> contains sub (a +:+ b).
Proof.
  intros (pre & post & ->).
  exists (a +:+ pre), post.
  now rewrite !str_app_assoc.
Qed.

Lemma contains_cons (sub : string) (c : ascii) (s : string) :
  contains sub s -> contains sub (String c s).
Proof.
  intros (pre & post & ->).
  exists (String c pre), post; reflexivity.
Qed.

Lemma contains_trans (a b c : string) : contains a b -> contains b c -> contains a c.
Proof.
  intros (p1 & q1 & ->) (p2 & q2 & ->).
  exists (p2 +:+ p1), (q1 +:+ q2).
  now rewrite !str_app_assoc.
Qed.

Lemma containsb_prefix (sub s : string) :
  prefixb sub s = true -> containsb sub s = true.
Proof.
  intros H; destruct s; simpl; rewrite H; reflexivity.
Qed.

(** The test [containsb] decides [contains]. *)
Lemma containsb_true (sub s : string) : containsb sub s = true <-> contains sub s.
Proof.
  split.
  - induction s as [|c s IH]; simpl; intros H.
    + rewrite orb_false_r in H.
      destruct (prefixb_true _ _ H) as [post Hp].
      exists "", post; exact Hp.
    + apply orb_true_iff in H as [H | H].
      * destruct (prefixb_true _ _ H) as [post Hp].
        exists "", post; exact Hp.
      * apply contains_cons, IH, H.
  - intros (pre & post & ->).
    induction pre as [|c pre IH]; simpl.
    + apply containsb_prefix, prefixb_app.
    + rewrite IH; apply orb_true_r.
Qed.

Lemma containsb_false (sub s : string) : containsb sub s = false -> ~ contains sub s.
Proof.
  intros H C; apply containsb_true in C; congruence.
Qed.

(** ** Dictionaries *)

Section DictFacts.
Context {V : Type}.
Implicit Types (d : dict V) (k : string) (v : V).

Lemma dict_get_set_eq k v d : dict_get k (dict_set k v d) = Some v.
Proof.
  induction d as [|[k' v'] d IH]; simpl.
  - now rewrite String.eqb_refl.
  - destruct (String.eqb k' k) eqn:E; simpl; rewrite E; [reflexivity | exact IH].
Qed.

Lemma dict_get_set_ne k k' v d :
  k <> k' -> dict_get k' (dict_set k v d) = dict_get k' d.
Proof.
  intros Hne; induction d as [|[k0 v0] d IH]; simpl.
  - destruct (String.eqb k k') eqn:E; [apply String.eqb_eq in E; contradiction | reflexivity].
  - destruct (String.eqb k0 k) eqn:E; simpl.
    + apply String.eqb_eq in E; subst k0.
      destruct (String.eqb_spec k k'); [contradiction | reflexivity].
    + now rewrite IH.
Qed.

(** Assigning twice is assigning once. *)
Lemma dict_set_idem k v d : dict_set k v (dict_set k v d) = dict_set k v d.
Proof.
  induction d as [|[k' v'] d IH]; simpl.
  - now rewrite String.eqb_refl.
  - destruct (String.eqb k' k) eqn:E; simpl; rewrite E; [reflexivity | now rewrite IH].
Qed.

(** Assignment keeps the keys already present, in their order, and
    adds the new key at the end. *)
Lemma dict_keys_set k v d :
  dict_keys (dict_set k v d)
  = match dict_get k d with
    | Some _ => dict_keys d
    | None => dict_keys d ++ [k]
    end.
Proof.
  unfold dict_keys.
  induction d as [|[k' v'] d IH]; simpl; [reflexivity |].
  destruct (String.eqb k' k) eqn:E; simpl; [reflexivity |].
  rewrite IH.
  destruct (dict_get k d); reflexivity.
Qed.

Lemma dict_get_is_Some_set k k' v d :
  is_Some (dict_get k' d) -> is_Some (dict_get k' (dict_set k v d)).
Proof.
  intros H.
  destruct (String.eqb_spec k k') as [-> | Hne].
  - rewrite dict_get_set_eq; eauto.
  - now rewrite dict_get_set_ne.
Qed.

Lemma dict_get_is_Some_update k d other :
  is_Some (dict_get k d) -> is_Some (dict_get k (dict_update d other)).
Proof.
  unfold dict_update; revert d.
  induction other as [|[k' v'] other IH]; intros d H; simpl; [exact H |].
  apply IH, dict_get_is_Some_set, H.
Qed.
End DictFacts.

(** ** [parse_derivatives_arg] *)

Lemma after_of_contains (c : ascii) (s : string) :
  containsb (String c "") s = true -> exists r, after c s = Some r.
Proof.
  induction s as [|a s IH]; simpl; [discriminate |].
  destruct (Ascii.eqb_spec a c) as [-> | Hne].
  - eauto.
  - destruct (Ascii.eqb_spec c a) as [-> | _]; [contradiction | exact IH].
Qed.

Lemma contains_of_after (c : ascii) (s r : string) :
  after c s = Some r -> containsb (String c "") s = true.
Proof.
  induction s as [|a s IH]; simpl; [discriminate |].
  destruct (Ascii.eqb_spec a c) as [-> | Hne].
  - now rewrite Ascii.eqb_refl.
  - intros H; rewrite (IH H); apply orb_true_r.
Qed.

(** A token [name=rest] whose [name] holds no separator is cut at that
    separator. *)
Lemma before_after_app (c : ascii) (name rest : string) :
  containsb (String c "") name = false ->
  before c (name +:+ String c rest) = name
  /\ after c (name +:+ String c rest) = Some rest.
Proof.
  induction name as [|a name IH]; simpl.
  - now rewrite Ascii.eqb_refl.
  - destruct (Ascii.eqb_spec c a) as [-> | Hne]; [discriminate |].
    simpl; intros H; destruct (IH H) as [Hb Ha].
    destruct (Ascii.eqb_spec a c) as [-> | _]; [contradiction |].
    now rewrite Hb, Ha.
Qed.

(** One turn of the loop on a well-formed token. *)
Lemma parse_derivatives_loop_cons (t : string) (l : list string)
    (acc d : dict PyPath) :
  parse_derivatives_loop (t :: l) acc = Ok d ->
  exists r, after "=" t = Some r
    /\ parse_derivatives_loop l (dict_set (before "=" t) (Path r) acc) = Ok d.
Proof.
  simpl.
  destruct (containsb "=" t) eqn:E; simpl; [| discriminate].
  destruct (after_of_contains _ _ E) as [r Hr].
  unfold split1; rewrite Hr; eauto.
Qed.

Lemma parse_derivatives_loop_err (l : list string) (acc : dict PyPath) (e : pyerror) :
  parse_derivatives_loop l acc = Err e ->
  exists t, In t l /\ containsb "=" t = false
    /\ e = ValueError (invalid_derivatives_msg t).
Proof.
  revert acc; induction l as [|t l IH]; intros acc; simpl; [discriminate |].
  destruct (containsb "=" t) eqn:E; simpl.
  - destruct (after_of_contains _ _ E) as [r Hr].
    unfold split1; rewrite Hr.
    intros H; destruct (IH _ H) as (t' & Hin & Ht').
    exists t'; auto.
  - intros [= <-]; exists t; auto.
Qed.

Lemma parse_derivatives_loop_ok (l : list string) (acc : dict PyPath) :
  (forall t, In t l -> containsb "=" t = true) ->
  exists d, parse_derivatives_loop l acc = Ok d.
Proof.
  revert acc; induction l as [|t l IH]; intros acc Hall; simpl; [eauto |].
  rewrite (Hall t (or_introl eq_refl)); simpl.
  destruct (after_of_contains _ _ (Hall t (or_introl eq_refl))) as [r Hr].
  unfold split1; rewrite Hr.
  apply IH; intros t' Hin; apply Hall; now right.
Qed.

Lemma parse_derivatives_loop_app (l1 l2 : list string) (acc d : dict PyPath) :
  parse_derivatives_loop (l1 ++ l2) acc = Ok d ->
  exists acc1, parse_derivatives_loop l1 acc = Ok acc1
    /\ parse_derivatives_loop l2 acc1 = Ok d.
Proof.
  revert acc; induction l1 as [|t l1 IH]; intros acc H.
  - exists acc; auto.
  - rewrite <- app_comm_cons in H.
    destruct (parse_derivatives_loop_cons _ _ _ _ H) as (r & Hr & Hl).
    destruct (IH _ Hl) as (acc1 & H1 & H2).
    exists acc1; split; [| exact H2].
    simpl; rewrite (contains_of_after _ _ _ Hr); simpl.
    unfold split1; rewrite Hr; exact H1.
Qed.

(** Tokens of another name leave the entry of [name] as it is. *)
Lemma parse_derivatives_loop_other (name : string) (l : list string)
    (acc d : dict PyPath) :
  (forall t, In t l -> before "=" t <> name) ->
  parse_derivatives_loop l acc = Ok d ->
  dict_get name d = dict_get name acc.
Proof.
  revert acc; induction l as [|t l IH]; intros acc Hall H.
  - simpl in H; congruence.
  - destruct (parse_derivatives_loop_cons _ _ _ _ H) as (r & Hr & Hl).
    rewrite (IH _ (fun t' Hin => Hall t' (or_intror Hin)) Hl).
    apply dict_get_set_ne, Hall; now left.
Qed.

Lemma parse_derivatives_arg_loop (l : list string) :
  parse_derivatives_arg l = parse_derivatives_loop l [].
Proof.
  destruct l; reflexivity.
Qed.

(** C3. [parse_derivatives_arg] maps [a=/x, b=/y] to the dictionary
    [a: /x, b: /y]; on [bad] it raises a [ValueError] whose message
    holds the token and the expected format [name=path]; and it raises
    exactly when some token holds no [=], the error then naming such a
    token. *)
Theorem parse_derivatives_arg_validation :
  parse_derivatives_arg ["a=/x"; "b=/y"] = Ok [("a", Path "/x"); ("b", Path "/y")]
  /\ parse_derivatives_arg ["bad"]
     = Err (ValueError
         "Invalid derivatives argument: bad. Expected format: name=path (e.g., preprocessed=/path/to/data)")
  /\ (forall l : list string,
        (exists e, parse_derivatives_arg l = Err e)
        <-> (exists t, In t l /\ containsb "=" t = false))
  /\ (forall (l : list string) (e : pyerror),
        parse_derivatives_arg l = Err e ->
        exists t, In t l /\ containsb "=" t = false
          /\ e = ValueError (invalid_derivatives_msg t)
          /\ contains t (invalid_derivatives_msg t)
          /\ contains "Expected format: name=path" (invalid_derivatives_msg t)).
Proof.
  split; [reflexivity |].
  split; [reflexivity |].
  split.
  - intros l; rewrite parse_derivatives_arg_loop; split.
    + intros [e He].
      destruct (parse_derivatives_loop_err _ _ _ He) as (t & Hin & Ht & _).
      exists t; auto.
    + intros (t & Hin & Ht).
      destruct (parse_derivatives_loop l []) as [d | e] eqn:E; [| eauto].
      exfalso.
      clear -E Hin Ht.
      revert E; generalize (@nil (string * PyPath)) as acc.
      induction l as [|t' l IH]; intros acc E; [destruct Hin |].
      destruct (parse_derivatives_loop_cons _ _ _ _ E) as (r & Hr & Hl).
      destruct Hin as [-> | Hin].
      * apply contains_of_after in Hr; congruence.
      * exact (IH Hin _ Hl).
  - intros l e; rewrite parse_derivatives_arg_loop; intros He.
    destruct (parse_derivatives_loop_err _ _ _ He) as (t & Hin & Ht & ->).
    exists t; repeat split; auto.
    + exists "Invalid derivatives argument: ",
        (". " +:+ "Expected format: name=path (e.g., preprocessed=/path/to/data)").
      reflexivity.
    + unfold invalid_derivatives_msg.
      do 3 apply contains_app_r.
      apply containsb_true; reflexivity.
Qed.

(** An instance: the error of a list whose second token is malformed
    names that token. *)
Lemma parse_derivatives_arg_validation_witness :
  exists t, In t ["a=/x"; "bad"] /\ containsb "=" t = false
    /\ ValueError (invalid_derivatives_msg "bad")
       = ValueError (invalid_derivatives_msg t)
    /\ contains t (invalid_derivatives_msg t)
    /\ contains "Expected format: name=path" (invalid_derivatives_msg t).
Proof.
  apply (proj2 (proj2 (proj2 parse_derivatives_arg_validation))
           ["a=/x"; "bad"] (ValueError (invalid_derivatives_msg "bad"))).
  reflexivity.
Defined.

(** C10. A token is cut at its first [=] only: when [name] holds no
    [=], the token [name=rest] is accepted with key [name] and path
    [rest], whatever [rest] holds (so [a=b=c] gives [a] the path
    [b=c]); and the entry of a name is the path of the last token of
    that name. *)
Theorem parse_derivatives_arg_first_separator :
  parse_derivatives_arg ["a=b=c"] = Ok [("a", Path "b=c")]
  /\ (forall name rest : string,
        containsb "=" name = false ->
        parse_derivatives_arg [name +:+ "=" +:+ rest] = Ok [(name, Path rest)])
  /\ (forall (l1 l2 : list string) (name rest : string) (d : dict PyPath),
        containsb "=" name = false ->
        (forall t, In t l2 -> before "=" t <> name) ->
        parse_derivatives_arg (l1 ++ (name +:+ "=" +:+ rest) :: l2) = Ok d ->
        dict_get name d = Some (Path rest)).
Proof.
  split; [reflexivity |].
  split.
  - intros name rest Hname.
    destruct (before_after_app "=" name rest Hname) as [Hb Ha].
    unfold parse_derivatives_arg; simpl.
    rewrite (contains_of_after _ _ _ Ha); simpl.
    unfold split1; rewrite Ha, Hb; reflexivity.
  - intros l1 l2 name rest d Hname Hl2.
    rewrite parse_derivatives_arg_loop; intros H.
    destruct (before_after_app "=" name rest Hname) as [Hb Ha].
    destruct (parse_derivatives_loop_app _ _ _ _ H) as (acc1 & _ & H2).
    destruct (parse_derivatives_loop_cons _ _ _ _ H2) as (r & Hr & Hl).
    simpl in Hr, Hl.
    rewrite Ha in Hr; injection Hr as <-.
    rewrite Hb in Hl.
    rewrite (parse_derivatives_loop_other name _ _ _ Hl2 Hl).
    apply dict_get_set_eq.
Qed.

(** The last of two tokens of one name wins. *)
Lemma parse_derivatives_arg_first_separator_witness :
  parse_derivatives_arg ["a=/x"; "b=/y"; "a=/z=w"]
  = Ok [("a", Path "/z=w"); ("b", Path "/y")]
  /\ dict_get "a" [("a", Path "/z=w"); ("b", Path "/y")] = Some (Path "/z=w").
Proof.
  split; [reflexivity |].
  apply (proj2 (proj2 parse_derivatives_arg_first_separator)
           ["a=/x"; "b=/y"] [] "a" "/z=w").
  - reflexivity.
  - intros t [].
  - reflexivity.
Defined.

(** ** [str.format] *)

(** On a well-formed format string, the scan of [format_from] is the
    substitution over the parsed form. *)
Lemma format_from_render (kwargs : dict pyval) (n : nat) :
  forall (s : string) (field : option string) (segs : list segment),
    String.length s <= n ->
    parse_from field s = Some segs ->
    format_from kwargs field s = render kwargs segs.
Proof.
  induction n as [|n IH]; intros s field segs Hlen Hp.
  - destruct s; [| simpl in Hlen; lia].
    destruct field; simpl in *; [discriminate |].
    injection Hp as <-; reflexivity.
  - destruct s as [|c r].
    { destruct field; simpl in *; [discriminate |].
      injection Hp as <-; reflexivity. }
    simpl in Hlen.
    assert (Hr : String.length r <= n) by lia.
    simpl in Hp |- *.
    destruct field as [name|].
    + destruct (Ascii.eqb c "}").
      * destruct (parse_from None r) as [segs'|] eqn:E; [| discriminate].
        injection Hp as <-; simpl.
        now rewrite (IH _ _ _ Hr E).
      * exact (IH _ _ _ Hr Hp).
    + destruct (Ascii.eqb c "{").
      { destruct r as [|c' r']; [discriminate |].
        destruct (Ascii.eqb c' "{").
        - destruct (parse_from None r') as [segs'|] eqn:E; [| discriminate].
          injection Hp as <-; simpl.
          simpl in Hr.
          now rewrite (IH r' None segs' ltac:(lia) E).
        - exact (IH _ _ _ Hr Hp). }
      destruct (Ascii.eqb c "}").
      { destruct r as [|c' r']; [discriminate |].
        destruct (Ascii.eqb c' "}"); [| discriminate].
        destruct (parse_from None r') as [segs'|] eqn:E; [| discriminate].
        injection Hp as <-; simpl.
        simpl in Hr.
        now rewrite (IH r' None segs' ltac:(lia) E). }
      destruct (parse_from None r) as [segs'|] eqn:E; [| discriminate].
      injection Hp as <-; simpl.
      now rewrite (IH _ _ _ Hr E).
Qed.

Lemma format_render (s : string) (kwargs : dict pyval) (segs : list segment) :
  parse_from None s = Some segs -> format s kwargs = render kwargs segs.
Proof.
  apply (format_from_render kwargs (String.length s)); lia.
Qed.

(** Substitution succeeds when every field is a key of [kwargs]. *)
Lemma render_ok (kwargs : dict pyval) (segs : list segment) :
  Forall (fun k => is_Some (dict_get k kwargs)) (segment_fields segs) ->
  exists out, render kwargs segs = Ok out.
Proof.
  induction segs as [|[c | name] segs IH]; simpl; intros H.
  - eauto.
  - destruct (IH H) as [out ->]; simpl; eauto.
  - inversion H as [| ? ? [v Hv] Hrest]; subst.
    rewrite Hv.
    destruct (IH Hrest) as [out ->]; simpl; eauto.
Qed.

(** It fails, with a [KeyError] on a field that is missing, when some
    field is not a key of [kwargs]. *)
Lemma render_key_error (kwargs : dict pyval) (segs : list segment) (k : string) :
  In k (segment_fields segs) -> dict_get k kwargs = None ->
  exists k', In k' (segment_fields segs) /\ dict_get k' kwargs = None
    /\ render kwargs segs = Err (KeyError k').
Proof.
  induction segs as [|[c | name] segs IH]; simpl; intros Hin Hk.
  - destruct Hin.
  - destruct (IH Hin Hk) as (k' & Hin' & Hk' & ->); simpl; eauto.
  - destruct (dict_get name kwargs) as [v|] eqn:E.
    + destruct Hin as [-> | Hin]; [congruence |].
      destruct (IH Hin Hk) as (k' & Hin' & Hk' & ->); simpl; eauto.
    + exists name; auto.
Qed.

(** The only exception substitution raises is a [KeyError] on a field
    that is missing. *)
Lemma render_err (kwargs : dict pyval) (segs : list segment) (e : pyerror) :
  render kwargs segs = Err e ->
  exists k, e = KeyError k /\ In k (segment_fields segs) /\ dict_get k kwargs = None.
Proof.
  induction segs as [|[c | name] segs IH]; simpl.
  - discriminate.
  - destruct (render kwargs segs) as [out | e'] eqn:E; simpl; [discriminate |].
    intros [= <-].
    destruct (IH eq_refl) as (k & -> & Hin & Hk); eauto.
  - destruct (dict_get name kwargs) as [v|] eqn:Ev.
    + destruct (render kwargs segs) as [out | e'] eqn:E; simpl; [discriminate |].
      intros [= <-].
      destruct (IH eq_refl) as (k & -> & Hin & Hk); eauto.
    + intros [= <-]; eauto.
Qed.

(** The value of every field occurs in the output. *)
Lemma render_contains (kwargs : dict pyval) (segs : list segment)
    (k : string) (v : pyval) (out : string) :
  render kwargs segs = Ok out ->
  In k (segment_fields segs) -> dict_get k kwargs = Some v ->
  contains (py_str v) out.
Proof.
  revert out; induction segs as [|[c | name] segs IH]; simpl; intros out Hr Hin Hk.
  - destruct Hin.
  - destruct (render kwargs segs) as [t | e]; simpl in Hr; [| discriminate].
    injection Hr as <-.
    apply contains_cons, (IH t); auto.
  - destruct (dict_get name kwargs) as [w|] eqn:Ew; [| discriminate].
    destruct (render kwargs segs) as [t | e]; simpl in Hr; [| discriminate].
    injection Hr as <-.
    destruct Hin as [-> | Hin].
    + replace w with v by congruence.
      apply contains_app_l, contains_refl.
    + apply contains_app_r, (IH t); auto.
Qed.

Section Format.
Variables (s : string) (kwargs : dict pyval).
Hypothesis Hs : well_formed s = true.

Lemma format_ok :
  Forall (fun k => is_Some (dict_get k kwargs)) (template_fields s) ->
  exists out, format s kwargs = Ok out.
Proof using Hs.
  unfold well_formed, template_fields in *.
  destruct (parse_from None s) as [segs|] eqn:E; [| discriminate].
  rewrite (format_render _ _ _ E); apply render_ok.
Qed.

Lemma format_key_error (k : string) :
  In k (template_fields s) -> dict_get k kwargs = None ->
  exists k', In k' (template_fields s) /\ dict_get k' kwargs = None
    /\ format s kwargs = Err (KeyError k').
Proof using Hs.
  unfold well_formed, template_fields in *.
  destruct (parse_from None s) as [segs|] eqn:E; [| discriminate].
  rewrite (format_render _ _ _ E); apply render_key_error.
Qed.

Lemma format_err (e : pyerror) :
  format s kwargs = Err e ->
  exists k, e = KeyError k /\ In k (template_fields s) /\ dict_get k kwargs = None.
Proof using Hs.
  unfold well_formed, template_fields in *.
  destruct (parse_from None s) as [segs|] eqn:E; [| discriminate].
  rewrite (format_render _ _ _ E); apply render_err.
Qed.

Lemma format_contains (k : string) (v : pyval) (out : string) :
  format s kwargs = Ok out ->
  In k (template_fields s) -> dict_get k kwargs = Some v ->
  contains (py_str v) out.
Proof using Hs.
  unfold well_formed, template_fields in *.
  destruct (parse_from None s) as [segs|] eqn:E; [| discriminate].
  rewrite (format_render _ _ _ E); apply render_contains.
Qed.
End Format.

Lemma DEFAULT_CSS_well_formed : well_formed DEFAULT_CSS = true.
Proof. vm_compute; reflexivity. Qed.

Lemma HTML_TEMPLATE_well_formed : well_formed HTML_TEMPLATE = true.
Proof. vm_compute; reflexivity. Qed.

Lemma DEFAULT_CSS_fields :
  template_fields DEFAULT_CSS
  = [ "font_family"; "text_color"; "bg_color"; "header_bg_start"; "header_bg_end";
      "nav_bg"; "nav_link_color"; "accent_color"; "section_bg"; "heading_color";
      "accent_color"; "heading_color"; "card_bg"; "border_color"; "accent_color";
      "muted_color"; "muted_color"; "chart_bg"; "border_color"; "table_header_bg";
      "border_color"; "table_hover_bg"; "tag_bg"; "tag_color"; "footer_bg";
      "footer_text"; "border_color"; "accent_color" ].
Proof. vm_compute; reflexivity. Qed.

Lemma HTML_TEMPLATE_fields :
  template_fields HTML_TEMPLATE
  = [ "author"; "description"; "title"; "css_content"; "header_html";
      "navigation_html"; "main_content_html"; "footer_html"; "javascript_content" ].
Proof. vm_compute; reflexivity. Qed.

Lemma css_keys_fields (k : string) :
  In k (template_fields DEFAULT_CSS) <-> In k css_keys.
Proof.
  rewrite DEFAULT_CSS_fields; unfold css_keys; simpl; tauto.
Qed.

(** ** The palette *)

Lemma build_color_scheme_cases (theme : string) :
  build_color_scheme theme = light_scheme
  \/ build_color_scheme theme = dark_scheme
  \/ build_color_scheme theme = minimal_scheme.
Proof.
  unfold build_color_scheme, schemes; cbn [dict_get].
  repeat match goal with |- context [String.eqb ?a ?b] => destruct (String.eqb a b) end;
    auto.
Qed.

(** A name that is not a key of [schemes] selects the light palette. *)
Lemma build_color_scheme_fallback (theme : string) :
  theme <> "light" -> theme <> "dark" -> theme <> "minimal" ->
  build_color_scheme theme = light_scheme.
Proof.
  intros H1 H2 H3; unfold build_color_scheme, schemes; cbn [dict_get].
  destruct (String.eqb_spec "light" theme); [congruence |].
  destruct (String.eqb_spec "dark" theme); [congruence |].
  destruct (String.eqb_spec "minimal" theme); [congruence | reflexivity].
Qed.

Lemma has_keys_update (keys : list string) (d other : dict pyval) :
  has_keys keys d -> has_keys keys (dict_update d other).
Proof.
  unfold has_keys; rewrite !Forall_forall.
  intros H k Hk; apply dict_get_is_Some_update, H, Hk.
Qed.

Lemma build_color_scheme_keys (theme : string) :
  has_keys css_keys (build_color_scheme theme).
Proof.
  destruct (build_color_scheme_cases theme) as [-> | [-> | ->]];
    repeat constructor; simpl; eauto.
Qed.

Lemma merge_colors_keys (theme : string) (custom_colors : option loc) (h : heap) :
  has_keys css_keys (merge_colors theme custom_colors h).
Proof.
  unfold merge_colors.
  destruct custom_colors as [c|]; [| apply build_color_scheme_keys].
  destruct (deref h c); [apply build_color_scheme_keys |].
  apply has_keys_update, build_color_scheme_keys.
Qed.

Lemma has_keys_fields (d : dict pyval) :
  has_keys css_keys d ->
  Forall (fun k => is_Some (dict_get k d)) (template_fields DEFAULT_CSS).
Proof.
  unfold has_keys; intros H.
  rewrite DEFAULT_CSS_fields.
  rewrite List.Forall_forall in H.
  repeat constructor; apply H; unfold css_keys; simpl; tauto.
Qed.

Lemma format_css_ok (d : dict pyval) :
  has_keys css_keys d -> exists css, format DEFAULT_CSS d = Ok css.
Proof.
  intros H; apply format_ok; [exact DEFAULT_CSS_well_formed |].
  apply has_keys_fields, H.
Qed.

(** The page template finds all its keyword arguments. *)
Lemma format_page_ok (title author description css header nav main footer : string) :
  exists html,
    format HTML_TEMPLATE
      (page_kwargs title author description css header nav main footer) = Ok html.
Proof.
  apply format_ok; [exact HTML_TEMPLATE_well_formed |].
  rewrite HTML_TEMPLATE_fields.
  repeat constructor; simpl; eauto.
Qed.

(** ** The store across a call *)

Lemma deref_insert_eq (h : heap) (l : loc) (d : dict pyval) :
  deref (<[l := d]> h) l = d.
Proof.
  unfold deref; now rewrite lookup_insert_eq.
Qed.

Lemma deref_insert_ne (h : heap) (l l' : loc) (d : dict pyval) :
  l <> l' -> deref (<[l := d]> h) l' = deref h l'.
Proof.
  intros Hne; unfold deref; now rewrite lookup_insert_ne.
Qed.

Lemma set_author_deref_eq (author : option string) (m : loc) (h : heap) :
  deref (set_author author m h) m = author_entry author (deref h m).
Proof.
  unfold set_author, author_entry.
  destruct author as [a|]; [| reflexivity].
  destruct (String.eqb a ""); [reflexivity | apply deref_insert_eq].
Qed.

Lemma set_author_lookup_ne (author : option string) (m l : loc) (h : heap) :
  m <> l -> set_author author m h !! l = h !! l.
Proof.
  intros Hne; unfold set_author.
  destruct author as [a|]; [| reflexivity].
  destruct (String.eqb a ""); [reflexivity | now rewrite lookup_insert_ne].
Qed.

Lemma fresh_not_live (h : heap) (l : loc) :
  is_Some (h !! l) -> fresh (dom h) <> l.
Proof.
  intros Hl E.
  apply (is_fresh (dom h)); rewrite E.
  apply elem_of_dom, Hl.
Qed.

(** The dictionary the header is built from. *)
Lemma call_metadata (author : option string) (metadata : option loc) (h : heap) :
  deref (call_store author metadata h) (fst (resolve_metadata metadata h))
  = author_entry author (initial_metadata metadata h).
Proof.
  unfold call_store; destruct metadata as [l|]; simpl.
  - apply set_author_deref_eq.
  - now rewrite set_author_deref_eq, deref_insert_eq.
Qed.

(** What a call leaves in an object of the caller. *)
Lemma call_store_lookup (author : option string) (metadata : option loc)
    (h : heap) (l : loc) (d : dict pyval) :
  h !! l = Some d ->
  call_store author metadata h !! l
  = Some (if decide (metadata = Some l) then author_entry author d else d).
Proof.
  intros Hl; unfold call_store.
  destruct metadata as [m|]; simpl.
  - destruct (decide (Some m = Some l)) as [E | Hne].
    + injection E as E; subst m.
      unfold set_author, author_entry.
      destruct author as [a|]; [| exact Hl].
      destruct (String.eqb a ""); [exact Hl |].
      rewrite lookup_insert_eq; unfold deref; rewrite Hl; reflexivity.
    + rewrite set_author_lookup_ne by congruence; exact Hl.
  - rewrite set_author_lookup_ne by (apply fresh_not_live; eauto).
    rewrite lookup_insert_ne by (apply fresh_not_live; eauto).
    exact Hl.
Qed.

Lemma call_store_deref (author : option string) (metadata : option loc)
    (h : heap) (l : loc) :
  is_Some (h !! l) ->
  deref (call_store author metadata h) l
  = if decide (metadata = Some l) then author_entry author (deref h l) else deref h l.
Proof.
  intros [d Hd].
  unfold deref at 1; rewrite (call_store_lookup _ _ _ _ _ Hd).
  unfold deref; rewrite Hd; reflexivity.
Qed.

(** The renderer, statement by statement. *)
Lemma generate_html_report_eq (now : datetime) (title : string)
    (description : option string) (sections : option (list string))
    (theme : string) (author : option string) (tags : option (list string))
    (metadata custom_colors : option loc) (h : heap) :
  generate_html_report now title description sections theme author tags
    metadata custom_colors h
  = (bind (format DEFAULT_CSS
             (merge_colors theme custom_colors (call_store author metadata h)))
       (fun css_content =>
          format HTML_TEMPLATE
            (page_kwargs title (str_or author "Analysis Pipeline")
               (str_or description "Generated analysis report")
               css_content
               (generate_header title description
                  (author_entry author (initial_metadata metadata h)))
               (generate_navigation (resolve_sections sections))
               (join (map (generate_section_placeholder now)
                        (resolve_sections sections)))
               (generate_footer now tags))),
     call_store author metadata h).
Proof.
  rewrite <- call_metadata.
  unfold generate_html_report, call_store.
  destruct (resolve_metadata metadata h) as [m h0]; reflexivity.
Qed.

(** No call raises: the style sheet finds its keys in the merged
    palette and the page its keyword arguments. *)
Lemma generate_html_report_ok (now : datetime) (title : string)
    (description : option string) (sections : option (list string))
    (theme : string) (author : option string) (tags : option (list string))
    (metadata custom_colors : option loc) (h : heap) :
  exists html,
    fst (generate_html_report now title description sections theme author tags
           metadata custom_colors h) = Ok html.
Proof.
  rewrite generate_html_report_eq; simpl.
  destruct (format_css_ok _ (merge_colors_keys theme custom_colors
                               (call_store author metadata h))) as [css ->].
  simpl; apply format_page_ok.
Qed.

(** Every keyword argument of the page occurs in the page. *)
Lemma format_page_contains
    (title author description css header nav main footer html : string) :
  format HTML_TEMPLATE
    (page_kwargs title author description css header nav main footer) = Ok html ->
  contains title html /\ contains author html /\ contains description html
  /\ contains css html /\ contains header html /\ contains nav html
  /\ contains main html /\ contains footer html.
Proof.
  intros H.
  pose proof (fun k v => format_contains _ _ HTML_TEMPLATE_well_formed k (PStr v) _ H) as F.
  rewrite HTML_TEMPLATE_fields in F.
  repeat split;
    [ apply (F "title") | apply (F "author") | apply (F "description")
    | apply (F "css_content") | apply (F "header_html")
    | apply (F "navigation_html") | apply (F "main_content_html")
    | apply (F "footer_html") ];
    solve [simpl; tauto | reflexivity].
Qed.

Lemma join_app (l1 l2 : list string) : join (l1 ++ l2) = join l1 +:+ join l2.
Proof.
  induction l1 as [|s l1 IH]; simpl; [reflexivity |].
  now rewrite IH, str_app_assoc.
Qed.

Lemma join_contains (s : string) (l : list string) : In s l -> contains s (join l).
Proof.
  induction l as [|t l IH]; simpl; intros H; [destruct H |].
  destruct H as [-> | H].
  - apply contains_app_l, contains_refl.
  - apply contains_app_r, IH, H.
Qed.

(** ** The claims on the report renderer *)

Lemma keys_present_or_missing (keys : list string) (d : dict pyval) :
  Forall (fun k => is_Some (dict_get k d)) keys
  \/ exists k, In k keys /\ dict_get k d = None.
Proof.
  induction keys as [|k keys [IH | (k' & Hin & Hk')]].
  - left; constructor.
  - destruct (dict_get k d) as [v|] eqn:E.
    + left; constructor; [rewrite E; eauto | exact IH].
    + right; exists k; simpl; auto.
  - right; exists k'; simpl; auto.
Qed.

(** C9. For a merged palette, either every key the style sheet
    template refers to is present and the style sheet is produced, or a
    referenced key is missing and formatting raises a [KeyError] on a
    missing key.  A palette selected by any theme name, merged with any
    override dictionary, has every referenced key, so that the style
    sheet is produced and the renderer returns a page. *)
Theorem css_keys_present_after_merge :
  (forall colors : dict pyval,
      (Forall (fun k => is_Some (dict_get k colors)) (template_fields DEFAULT_CSS)
       /\ exists css, format DEFAULT_CSS colors = Ok css)
      \/ (exists k, In k (template_fields DEFAULT_CSS) /\ dict_get k colors = None
          /\ format DEFAULT_CSS colors = Err (KeyError k)))
  /\ (forall (theme : string) (other : dict pyval),
        Forall (fun k => is_Some (dict_get k (dict_update (build_color_scheme theme) other)))
          (template_fields DEFAULT_CSS)
        /\ exists css,
             format DEFAULT_CSS (dict_update (build_color_scheme theme) other) = Ok css)
  /\ (forall (now : datetime) (title : string) (description : option string)
        (sections : option (list string)) (theme : string) (author : option string)
        (tags : option (list string)) (metadata custom_colors : option loc) (h : heap),
        exists html,
          fst (generate_html_report now title description sections theme author tags
                 metadata custom_colors h) = Ok html).
Proof.
  split; [| split].
  - intros colors.
    destruct (keys_present_or_missing (template_fields DEFAULT_CSS) colors)
      as [Hall | (k & Hin & Hk)].
    + left; split; [exact Hall |].
      apply format_ok; [exact DEFAULT_CSS_well_formed | exact Hall].
    + right.
      destruct (format_key_error _ colors DEFAULT_CSS_well_formed k Hin Hk)
        as (k' & Hin' & Hk' & E).
      exists k'; auto.
  - intros theme other.
    assert (Hk : has_keys css_keys (dict_update (build_color_scheme theme) other))
      by apply has_keys_update, build_color_scheme_keys.
    split; [apply has_keys_fields, Hk | apply format_css_ok, Hk].
  - intros; apply generate_html_report_ok.
Qed.

(** C4. A theme name other than [light], [dark] and [minimal] selects
    the light palette, and the renderer returns a page, the one it
    returns for the theme [light]: nothing tells the caller that the
    name was not known. *)
Theorem unknown_theme_falls_back (now : datetime) (title : string)
    (description : option string) (sections : option (list string))
    (theme : string) (author : option string) (tags : option (list string))
    (metadata custom_colors : option loc) (h : heap) :
  theme <> "light" -> theme <> "dark" -> theme <> "minimal" ->
  build_color_scheme theme = light_scheme
  /\ build_color_scheme theme = build_color_scheme "light"
  /\ (exists html,
        fst (generate_html_report now title description sections theme author tags
               metadata custom_colors h) = Ok html)
  /\ generate_html_report now title description sections theme author tags
       metadata custom_colors h
     = generate_html_report now title description sections "light" author tags
         metadata custom_colors h.
Proof.
  intros H1 H2 H3.
  pose proof (build_color_scheme_fallback theme H1 H2 H3) as E.
  split; [exact E |].
  split; [rewrite E; reflexivity |].
  split; [apply generate_html_report_ok |].
  unfold generate_html_report, merge_colors; rewrite E; reflexivity.
Qed.

Lemma unknown_theme_falls_back_witness :
  build_color_scheme "custom" = light_scheme
  /\ exists html,
       fst (generate_html_report sample_now "Report" None None "custom" None None
              None None ∅) = Ok html.
Proof.
  destruct (unknown_theme_falls_back sample_now "Report" None None "custom" None
              None None None ∅) as (E & _ & Hok & _);
    [discriminate | discriminate | discriminate |].
  split; [exact E | exact Hok].
Defined.

(** C6. With no section list the renderer uses the list [summary,
    metrics, visualizations]; and with the title alone, for every theme
    name (the three built-in ones included), it returns a page that
    holds the title and the navigation block, in which each of the three
    default sections has its link and there is no other link. *)
Theorem default_sections_title_and_navigation :
  resolve_sections None = ["summary"; "metrics"; "visualizations"]
  /\ (forall (now : datetime) (title : string) (description : option string)
        (theme : string) (author : option string) (tags : option (list string))
        (metadata custom_colors : option loc) (h : heap),
        generate_html_report now title description None theme author tags
          metadata custom_colors h
        = generate_html_report now title description
            (Some ["summary"; "metrics"; "visualizations"]) theme author tags
            metadata custom_colors h)
  /\ join (map nav_item default_sections)
     = "<li><a href=" +:+ q "#summary" +:+ ">Summary</a></li>"
       +:+ "<li><a href=" +:+ q "#metrics" +:+ ">Metrics</a></li>"
       +:+ "<li><a href=" +:+ q "#visualizations" +:+ ">Visualizations</a></li>"
  /\ count_occ_str "<a href=" (generate_navigation default_sections) = 3
  /\ Forall (fun s => contains (nav_item s) (generate_navigation default_sections))
       default_sections
  /\ (forall (now : datetime) (title theme : string) (h : heap),
        exists html,
          fst (generate_html_report now title None None theme None None None None h)
          = Ok html
          /\ contains title html
          /\ contains (generate_navigation default_sections) html
          /\ Forall (fun s => contains (nav_item s) html) default_sections).
Proof.
  assert (Hnav : Forall (fun s => contains (nav_item s)
                                     (generate_navigation default_sections))
                   default_sections).
  { repeat constructor; apply containsb_true; vm_compute; reflexivity. }
  split; [reflexivity |].
  split; [reflexivity |].
  split; [reflexivity |].
  split; [vm_compute; reflexivity |].
  split; [exact Hnav |].
  intros now title theme h.
  destruct (generate_html_report_ok now title None None theme None None None None h)
    as [html Hhtml].
  exists html; split; [exact Hhtml |].
  rewrite generate_html_report_eq in Hhtml; simpl in Hhtml.
  destruct (format DEFAULT_CSS _) as [css | e]; simpl in Hhtml; [| discriminate].
  apply format_page_contains in Hhtml as (Ht & _ & _ & _ & _ & Hn & _).
  split; [exact Ht |].
  split; [exact Hn |].
  eapply List.Forall_impl; [| exact Hnav].
  intros s Hs; exact (contains_trans _ _ _ Hs Hn).
Qed.

(** A name whose lower-case form is not recognized renders to nothing. *)
Lemma generate_section_placeholder_unrecognized (now : datetime) (section_name : string) :
  ~ In (str_lower section_name) recognized_sections ->
  generate_section_placeholder now section_name = "".
Proof.
  intros H; unfold generate_section_placeholder.
  repeat match goal with
  | |- context [String.eqb (str_lower section_name) ?k] =>
      destruct (String.eqb_spec (str_lower section_name) k) as [E | _];
      [exfalso; apply H; rewrite E; simpl; tauto |]
  end.
  reflexivity.
Qed.

(** A name whose lower-case form is recognized renders to the section
    element of that identifier. *)
Lemma generate_section_placeholder_recognized (now : datetime) (section_name : string) :
  In (str_lower section_name) recognized_sections ->
  prefixb ("
    <section id=" +:+ q (str_lower section_name) +:+ " class=" +:+ q "section" +:+ ">")
    (generate_section_placeholder now section_name) = true.
Proof.
  unfold generate_section_placeholder.
  simpl; intros [E | [E | [E | [E | [E | []]]]]]; rewrite <- E; reflexivity.
Qed.

(** C8, as the code has it.  For every list of section identifiers the
    renderer returns a page holding the fragments of the identifiers,
    one each, concatenated in the order of the list; an identifier whose
    lower-case form is outside [summary, metrics, visualizations,
    quality, metadata] gives the empty fragment, and nothing is
    raised. *)
Theorem section_fragments_in_order :
  (forall (now : datetime) (title : string) (description : option string)
      (sections : list string) (theme : string) (author : option string)
      (tags : option (list string)) (metadata custom_colors : option loc) (h : heap),
      exists html,
        fst (generate_html_report now title description (Some sections) theme author
               tags metadata custom_colors h) = Ok html
        /\ contains (join (map (generate_section_placeholder now) sections)) html)
  /\ (forall (now : datetime) (s : string) (l : list string),
        join (map (generate_section_placeholder now) (s :: l))
        = generate_section_placeholder now s
          +:+ join (map (generate_section_placeholder now) l))
  /\ (forall (now : datetime) (l1 l2 : list string),
        join (map (generate_section_placeholder now) (l1 ++ l2))
        = join (map (generate_section_placeholder now) l1)
          +:+ join (map (generate_section_placeholder now) l2))
  /\ (forall (now : datetime) (section_name : string),
        ~ In (str_lower section_name) recognized_sections ->
        generate_section_placeholder now section_name = "")
  /\ (forall (now : datetime) (section_name : string),
        In (str_lower section_name) recognized_sections ->
        generate_section_placeholder now section_name <> "").
Proof.
  split; [| split; [| split; [| split]]].
  - intros.
    destruct (generate_html_report_ok now title description (Some sections) theme
                author tags metadata custom_colors h) as [html Hhtml].
    exists html; split; [exact Hhtml |].
    rewrite generate_html_report_eq in Hhtml; simpl in Hhtml.
    destruct (format DEFAULT_CSS _) as [css | e]; simpl in Hhtml; [| discriminate].
    apply format_page_contains in Hhtml; tauto.
  - reflexivity.
  - intros; now rewrite map_app, join_app.
  - apply generate_section_placeholder_unrecognized.
  - intros now section_name Hin E.
    apply (generate_section_placeholder_recognized now) in Hin.
    rewrite E in Hin; discriminate.
Qed.

(** An instance: an unknown name between two known ones leaves no
    trace. *)
Lemma section_fragments_in_order_witness :
  generate_section_placeholder sample_now "appendix" = ""
  /\ join (map (generate_section_placeholder sample_now)
             ["quality"; "appendix"; "summary"])
     = generate_section_placeholder sample_now "quality"
       +:+ generate_section_placeholder sample_now "summary".
Proof.
  pose proof (proj1 (proj2 (proj2 (proj2 section_fragments_in_order)))
                sample_now "appendix") as H.
  split.
  - apply H; vm_compute; intuition discriminate.
  - vm_compute; reflexivity.
Defined.

(** C8 as stated fails: [SUMMARY] is not one of the five recognized
    identifiers, and its fragment is the summary section, not the empty
    string. *)
Lemma section_upper_case_counterexample :
  existsb (String.eqb "SUMMARY") recognized_sections = false
  /\ generate_section_placeholder sample_now "SUMMARY"
     = generate_section_placeholder sample_now "summary"
  /\ String.eqb (generate_section_placeholder sample_now "SUMMARY") "" = false.
Proof.
  vm_compute; auto.
Qed.

(** ** The author and the metadata dictionary *)








(** C2, as the code has it.  A call leaves every dictionary of the
    caller as it was, but for the metadata dictionary when the author is
    not empty: that one is assigned the author under the key [Author],
    and keeps the value of every other key. *)
Theorem caller_dictionaries_after_call (now : datetime) (title : string)
    (description : option string) (sections : option (list string))
    (theme : string) (author : option string) (tags : option (list string))
    (metadata custom_colors : option loc) (h : heap) (l : loc) (d : dict pyval) :
  h !! l = Some d ->
  let h' := snd (generate_html_report now title description sections theme author tags
                   metadata custom_colors h) in
  h' !! l = Some (if decide (metadata = Some l) then author_entry author d else d)
  /\ (metadata <> Some l -> h' !! l = Some d)
  /\ (str_truthy author = false -> h' !! l = Some d)
  /\ (forall a, author = Some a -> a <> "" -> metadata = Some l ->
        h' !! l = Some (dict_set "Author" (PStr a) d))
  /\ (forall k, k <> "Author" -> dict_get k (author_entry author d) = dict_get k d).
Proof.
  intros Hl h'.
  assert (E : h' !! l
              = Some (if decide (metadata = Some l) then author_entry author d else d)).
  { subst h'; rewrite generate_html_report_eq; simpl.
    apply call_store_lookup, Hl. }
  split; [exact E |].
  split; [intros Hne; rewrite E; destruct (decide (metadata = Some l)); congruence |].
  split.
  { intros Ha; rewrite E.
    destruct author as [a|]; simpl in *; [| now destruct (decide _)].
    apply negb_false_iff in Ha; rewrite Ha; now destruct (decide _). }
  split.
  { intros a -> Ha Hm; rewrite E.
    destruct (decide (metadata = Some l)); [| contradiction].
    simpl; destruct (String.eqb_spec a ""); [contradiction | reflexivity]. }
  intros k Hk; unfold author_entry.
  destruct author as [a|]; [| reflexivity].
  destruct (String.eqb a ""); [reflexivity |].
  apply dict_get_set_ne; congruence.
Qed.

Lemma caller_dictionaries_after_call_witness :
  snd (generate_html_report sample_now "Report" None None "light" None None
         (Some 0) (Some 1)
         {[ 0 := [("Date", PStr "2024-01-15")]; 1 := [("accent_color", PStr "#123456")] ]})
    !! 0
  = Some [("Date", PStr "2024-01-15")].
Proof.
  refine (proj1 (proj2 (proj2 (caller_dictionaries_after_call sample_now "Report" None
            None "light" None None (Some 0) (Some 1)
            {[ 0 := [("Date", PStr "2024-01-15")];
               1 := [("accent_color", PStr "#123456")] ]}
            0 [("Date", PStr "2024-01-15")] _))) _).
  - reflexivity.
  - reflexivity.
Defined.

(** C2 as stated fails: with an author, the dictionary of the caller
    has a key after the call that it had not before. *)
Lemma metadata_mutated_counterexample :
  ({[ 0 := [("Date", PStr "2024-01-15")] ]} : heap) !! 0
  = Some [("Date", PStr "2024-01-15")]
  /\ snd (generate_html_report sample_now "Report" None None "light" (Some "Ada") None
            (Some 0) None {[ 0 := [("Date", PStr "2024-01-15")] ]}) !! 0
     = Some [("Date", PStr "2024-01-15"); ("Author", PStr "Ada")].
Proof.
  split; vm_compute; reflexivity.
Qed.

(** ** Two calls in a row *)

Lemma author_entry_idem (author : option string) (d : dict pyval) :
  author_entry author (author_entry author d) = author_entry author d.
Proof.
  unfold author_entry.
  destruct author as [a|]; [| reflexivity].
  destruct (String.eqb a "") eqn:E; [reflexivity |].
  apply dict_set_idem.
Qed.

Lemma call_store_live (author : option string) (metadata : option loc) (h : heap)
    (o : option loc) :
  live h o -> live (call_store author metadata h) o.
Proof.
  destruct o as [l|]; simpl; [| trivial].
  intros [d Hd]; rewrite (call_store_lookup _ _ _ _ _ Hd); eauto.
Qed.

(** The metadata dictionary of a second call is that of the first. *)
Lemma initial_metadata_again (author : option string) (metadata : option loc) (h : heap) :
  live h metadata ->
  author_entry author (initial_metadata metadata (call_store author metadata h))
  = author_entry author (initial_metadata metadata h).
Proof.
  destruct metadata as [m|]; simpl; [| reflexivity].
  intros Hm; rewrite (call_store_deref _ _ _ _ Hm).
  destruct (decide (Some m = Some m)); [| contradiction].
  apply author_entry_idem.
Qed.

(** So is the override dictionary. *)
Lemma merge_colors_again (theme : string) (author : option string)
    (metadata custom_colors : option loc) (h : heap) :
  live h custom_colors ->
  merge_colors theme custom_colors
    (call_store author metadata (call_store author metadata h))
  = merge_colors theme custom_colors (call_store author metadata h).
Proof.
  destruct custom_colors as [c|]; simpl; [| reflexivity].
  intros Hc; unfold merge_colors.
  rewrite (call_store_deref _ _ (call_store author metadata h) c)
    by exact (call_store_live author metadata h (Some c) Hc).
  rewrite (call_store_deref _ _ h c Hc).
  destruct (decide (metadata = Some c)); [| reflexivity].
  now rewrite author_entry_idem.
Qed.

(** C5. With the clock stopped at [now], a second call with the same
    arguments, made on the store the first call left, returns the
    string the first call returned. *)
Theorem generate_html_report_deterministic (now : datetime) (title : string)
    (description : option string) (sections : option (list string))
    (theme : string) (author : option string) (tags : option (list string))
    (metadata custom_colors : option loc) (h : heap) :
  live h metadata ->
  live h custom_colors ->
  let r1 := generate_html_report now title description sections theme author tags
              metadata custom_colors h in
  let r2 := generate_html_report now title description sections theme author tags
              metadata custom_colors (snd r1) in
  fst r2 = fst r1 /\ exists html, fst r1 = Ok html /\ fst r2 = Ok html.
Proof.
  intros Hm Hc r1 r2.
  assert (E : fst r2 = fst r1).
  { subst r1 r2; rewrite !generate_html_report_eq; cbn [fst snd].
    rewrite (initial_metadata_again _ _ _ Hm).
    rewrite (merge_colors_again _ _ _ _ _ Hc).
    reflexivity. }
  split; [exact E |].
  destruct (generate_html_report_ok now title description sections theme author tags
              metadata custom_colors h) as [html Hhtml].
  exists html; split; [exact Hhtml | rewrite E; exact Hhtml].
Qed.

Lemma generate_html_report_deterministic_witness :
  fst (generate_html_report sample_now "Report" (Some "Twice") None "dark"
         (Some "Ada") (Some ["qc"]) (Some 0) (Some 0)
         (snd (generate_html_report sample_now "Report" (Some "Twice") None "dark"
                 (Some "Ada") (Some ["qc"]) (Some 0) (Some 0)
                 {[ 0 := [("accent_color", PStr "#123456")] ]})))
  = fst (generate_html_report sample_now "Report" (Some "Twice") None "dark"
           (Some "Ada") (Some ["qc"]) (Some 0) (Some 0)
           {[ 0 := [("accent_color", PStr "#123456")] ]}).
Proof.
  refine (proj1 (generate_html_report_deterministic sample_now "Report" (Some "Twice")
                   None "dark" (Some "Ada") (Some ["qc"]) (Some 0) (Some 0)
                   {[ 0 := [("accent_color", PStr "#123456")] ]} _ _)).
  - simpl; rewrite lookup_singleton_eq; eauto.
  - simpl; rewrite lookup_singleton_eq; eauto.
Defined.

(** ** The accent override *)

Lemma format_css_accent :
  format DEFAULT_CSS (dict_update light_scheme accent_override) = Ok accent_css.
Proof. vm_compute; reflexivity. Qed.

(** An [Author] entry in the override dictionary, which it has when the
    caller passes one dictionary as metadata and as override, changes
    nothing in the style sheet. *)
Lemma format_css_accent_author (a : string) :
  format DEFAULT_CSS
    (dict_update light_scheme (dict_set "Author" (PStr a) accent_override))
  = Ok accent_css.
Proof. vm_compute; reflexivity. Qed.

Lemma merge_colors_accent (author : option string) (metadata : option loc)
    (c : loc) (h : heap) :
  h !! c = Some accent_override ->
  merge_colors "light" (Some c) (call_store author metadata h)
  = dict_update light_scheme accent_override
  \/ exists a,
       merge_colors "light" (Some c) (call_store author metadata h)
       = dict_update light_scheme (dict_set "Author" (PStr a) accent_override).
Proof.
  intros Hc; unfold merge_colors.
  rewrite (call_store_deref _ _ _ _ (ex_intro _ _ Hc)).
  unfold deref; rewrite Hc; simpl.
  destruct (decide (metadata = Some c)); [| left; reflexivity].
  destruct author as [a|]; simpl; [| left; reflexivity].
  destruct (String.eqb a ""); [left; reflexivity | right; exists a; reflexivity].
Qed.

(** C1, as the code has it.  With the theme [light] and the override of
    [accent_color] by [#123456], whatever the other arguments, the
    returned page holds [#123456]: the merged palette gives it to
    [accent_color], and the style sheet holds it four times, once for
    each reference of the template to that key.  The value [#667eea]
    still occurs in the page: the light palette has it for
    [header_bg_start] and [table_header_bg] too, which the override
    leaves as they are, and the style sheet holds it twice. *)
Theorem accent_override_in_page (now : datetime) (title : string)
    (description : option string) (sections : option (list string))
    (author : option string) (tags : option (list string))
    (metadata : option loc) (c : loc) (h : heap) :
  h !! c = Some accent_override ->
  let r := generate_html_report now title description sections "light" author tags
             metadata (Some c) h in
  let colors := merge_colors "light" (Some c) (snd r) in
  dict_get "accent_color" colors = Some (PStr "#123456")
  /\ dict_get "header_bg_start" colors = Some (PStr "#667eea")
  /\ dict_get "table_header_bg" colors = Some (PStr "#667eea")
  /\ format DEFAULT_CSS colors = Ok accent_css
  /\ count_occ_str "#123456" accent_css = 4
  /\ count_occ_str "#667eea" accent_css = 2
  /\ exists html,
       fst r = Ok html
       /\ contains accent_css html
       /\ contains "#123456" html
       /\ contains "#667eea" html.
Proof.
  intros Hc r colors.
  assert (Hsnd : snd r = call_store author metadata h).
  { subst r; rewrite generate_html_report_eq; reflexivity. }
  assert (Hcolors : dict_get "accent_color" colors = Some (PStr "#123456")
                    /\ dict_get "header_bg_start" colors = Some (PStr "#667eea")
                    /\ dict_get "table_header_bg" colors = Some (PStr "#667eea")
                    /\ format DEFAULT_CSS colors = Ok accent_css).
  { subst colors; rewrite Hsnd.
    destruct (merge_colors_accent author metadata c h Hc) as [-> | [a ->]].
    - repeat split; try reflexivity; apply format_css_accent.
    - repeat split; try reflexivity; apply format_css_accent_author. }
  destruct Hcolors as (H1 & H2 & H3 & Hcss).
  do 4 (split; [assumption |]).
  split; [vm_compute; reflexivity |].
  split; [vm_compute; reflexivity |].
  destruct (generate_html_report_ok now title description sections "light" author tags
              metadata (Some c) h) as [html Hhtml].
  exists html; split; [exact Hhtml |].
  fold r in Hhtml.
  subst r; rewrite generate_html_report_eq in Hhtml, Hsnd; cbn [fst snd] in Hhtml, Hsnd.
  subst colors; rewrite generate_html_report_eq in Hcss; cbn [snd] in Hcss.
  rewrite Hcss in Hhtml; simpl in Hhtml.
  apply format_page_contains in Hhtml as (_ & _ & _ & Hin & _).
  split; [exact Hin |].
  split; refine (contains_trans _ _ _ _ Hin); apply containsb_true;
    vm_compute; reflexivity.
Qed.

Lemma accent_override_in_page_witness :
  exists html,
    fst (generate_html_report sample_now "Report" None None "light" None None None
           (Some 0) {[ 0 := accent_override ]}) = Ok html
    /\ contains "#123456" html.
Proof.
  destruct (accent_override_in_page sample_now "Report" None None None None None 0
              {[ 0 := accent_override ]})
    as (_ & _ & _ & _ & _ & _ & html & Hhtml & _ & H & _).
  - reflexivity.
  - exists html; split; [exact Hhtml | exact H].
Defined.

(** C1 as stated fails: the page of a call with that override holds
    [#123456] and holds [#667eea] as well. *)
Lemma default_accent_value_counterexample :
  exists html,
    fst (generate_html_report sample_now "Report" None None "light" None None None
           (Some 0) {[ 0 := accent_override ]}) = Ok html
    /\ containsb "#123456" html = true
    /\ containsb "#667eea" html = true
    /\ containsb "linear-gradient(135deg, #667eea, #764ba2)" html = true.
Proof.
  eexists; split; [vm_compute; reflexivity |].
  repeat split; vm_compute; reflexivity.
Qed.

(** * Further properties *)

(** ** Dictionaries, continued *)

Section DictOrder.
Context {V : Type}.
Implicit Types (d : dict V) (k : string) (v : V).

Lemma dict_get_None_keys k d : dict_get k d = None <-> ~ In k (dict_keys d).
Proof.
  unfold dict_keys.
  induction d as [|[k' v'] d IH]; simpl; [tauto |].
  destruct (String.eqb_spec k' k) as [-> | Hne].
  - split; [discriminate | intros H; exfalso; apply H; now left].
  - rewrite IH; tauto.
Qed.

Lemma dict_get_Some_keys k d : is_Some (dict_get k d) <-> In k (dict_keys d).
Proof.
  unfold dict_keys.
  induction d as [|[k' v'] d IH]; simpl.
  - split; [intros [x Hx]; discriminate | tauto].
  - destruct (String.eqb_spec k' k) as [-> | Hne].
    + split; eauto.
    + rewrite IH; tauto.
Qed.

(** Assigning to a new key appends the entry. *)
Lemma dict_set_fresh k v d : dict_get k d = None -> dict_set k v d = d ++ [(k, v)].
Proof.
  induction d as [|[k' v'] d IH]; simpl; [reflexivity |].
  destruct (String.eqb k' k); [discriminate |].
  intros H; now rewrite IH.
Qed.

Lemma dict_keys_app d1 d2 : dict_keys (d1 ++ d2) = dict_keys d1 ++ dict_keys d2.
Proof.
  unfold dict_keys; apply map_app.
Qed.

(** Assignment keeps the keys distinct. *)
Lemma dict_set_NoDup k v d :
  List.NoDup (dict_keys d) -> List.NoDup (dict_keys (dict_set k v d)).
Proof.
  intros Hnd; rewrite dict_keys_set.
  destruct (dict_get k d) eqn:E; [exact Hnd |].
  apply dict_get_None_keys in E.
  apply NoDup_ListNoDup, NoDup_app; repeat split.
  - apply NoDup_ListNoDup, Hnd.
  - intros x Hx Hx'.
    apply list_elem_of_In in Hx, Hx'.
    destruct Hx' as [<- | []]; contradiction.
  - apply NoDup_singleton.
Qed.

Lemma dict_set_length k v d : length (dict_set k v d) <= S (length d).
Proof.
  induction d as [|[k' v'] d IH]; simpl; [lia |].
  destruct (String.eqb k' k); simpl; lia.
Qed.

Lemma dict_keys_set_in k k' v d :
  In k' (dict_keys (dict_set k v d)) <-> In k' (dict_keys d) \/ k' = k.
Proof.
  rewrite dict_keys_set.
  destruct (dict_get k d) eqn:E.
  - assert (In k (dict_keys d)) by (apply dict_get_Some_keys; rewrite E; eauto).
    split; [tauto | intros [H' | ->]; assumption].
  - rewrite in_app_iff; simpl; intuition congruence.
Qed.
End DictOrder.

(** ** [parse_derivatives_arg], continued *)

(** The text before the first separator holds no separator. *)
Lemma before_no_separator (c : ascii) (s : string) :
  containsb (String c "") (before c s) = false.
Proof.
  induction s as [|a s IH]; simpl; [reflexivity |].
  destruct (Ascii.eqb_spec a c) as [-> | Hne]; simpl; [reflexivity |].
  destruct (Ascii.eqb_spec c a) as [-> | _]; [contradiction | exact IH].
Qed.

(** X1. The tokens [name=path] of a dictionary whose names are distinct
    and hold no [=] are parsed back to that dictionary, entry for entry
    and in the same order. *)
Theorem parse_derivatives_arg_round_trip (d : dict PyPath) :
  List.NoDup (dict_keys d) ->
  (forall k, In k (dict_keys d) -> containsb "=" k = false) ->
  parse_derivatives_arg (map derivative_token d) = Ok d.
Proof.
  intros Hnd Hkeys.
  rewrite parse_derivatives_arg_loop.
  change (Ok d) with (@Ok (dict PyPath) ([] ++ d)).
  revert Hnd Hkeys.
  change (dict_keys d) with (dict_keys (@nil (string * PyPath)) ++ dict_keys d) at 1.
  generalize (@nil (string * PyPath)) as acc.
  induction d as [|[k [p]] d IH]; intros acc Hnd Hkeys.
  - simpl; now rewrite app_nil_r.
  - assert (Hk : containsb "=" k = false) by (apply Hkeys; now left).
    destruct (before_after_app "=" k p Hk) as [Hb Ha].
    assert (Hfresh : dict_get k acc = None).
    { apply dict_get_None_keys; intros Hin.
      apply List.NoDup_remove_2 in Hnd; apply Hnd, in_or_app; now left. }
    cbn [map]; unfold derivative_token at 1; cbn [fst snd path_str].
    cbn [parse_derivatives_loop].
    change (k +:+ "=" +:+ p) with (k +:+ String "=" p).
    rewrite (contains_of_after _ _ _ Ha); cbn [negb].
    unfold split1; rewrite Ha, Hb.
    rewrite (dict_set_fresh _ _ _ Hfresh).
    rewrite (IH (acc ++ [(k, Path p)])).
    + now rewrite <- app_assoc.
    + rewrite dict_keys_app; simpl; rewrite <- app_assoc; exact Hnd.
    + intros k' Hin; apply Hkeys; now right.
Qed.

Lemma parse_derivatives_arg_round_trip_witness :
  parse_derivatives_arg
    (map derivative_token
       [("fmriprep", Path "/data/derivatives/fmriprep"); ("qc", Path "/qc=2")])
  = Ok [("fmriprep", Path "/data/derivatives/fmriprep"); ("qc", Path "/qc=2")].
Proof.
  apply parse_derivatives_arg_round_trip.
  - unfold dict_keys; simpl; repeat constructor; simpl; intuition discriminate.
  - unfold dict_keys; simpl; intros k [<- | [<- | []]]; reflexivity.
Defined.

(** The keys of the dictionary the loop returns. *)
Lemma parse_derivatives_loop_keys (l : list string) (acc d : dict PyPath) :
  parse_derivatives_loop l acc = Ok d ->
  List.NoDup (dict_keys acc) ->
  List.NoDup (dict_keys d)
  /\ (forall k, In k (dict_keys d)
        <-> In k (dict_keys acc) \/ exists t, In t l /\ before "=" t = k)
  /\ length d <= length acc + length l.
Proof.
  revert acc; induction l as [|t l IH]; intros acc H Hnd.
  - injection H as <-; repeat split; auto; try lia.
    intros [Hk | (t & [] & _)]; exact Hk.
  - destruct (parse_derivatives_loop_cons _ _ _ _ H) as (r & Hr & Hl).
    destruct (IH _ Hl (dict_set_NoDup _ _ _ Hnd)) as (Hnd' & Hkeys & Hlen).
    split; [exact Hnd' |].
    split.
    + intros k; rewrite Hkeys, dict_keys_set_in; simpl; split.
      * intros [[Hk | ->] | (u & Hu & Hb)]; eauto 6.
      * intros [Hk | (u & [<- | Hu] & Hb)]; eauto 6.
    + pose proof (dict_set_length (before "=" t) (Path r) acc); simpl; lia.
Qed.

(** X2. The dictionary [parse_derivatives_arg] returns has one entry
    for each distinct name among the tokens and no other: its keys are
    distinct, they are the texts before the first [=] of the tokens,
    none holds a [=], and there are at most as many as tokens. *)
Theorem parse_derivatives_arg_keys (l : list string) (d : dict PyPath) :
  parse_derivatives_arg l = Ok d ->
  List.NoDup (dict_keys d)
  /\ (forall k, In k (dict_keys d) <-> exists t, In t l /\ before "=" t = k)
  /\ (forall k, In k (dict_keys d) -> containsb "=" k = false)
  /\ length d <= length l.
Proof.
  rewrite parse_derivatives_arg_loop; intros H.
  destruct (parse_derivatives_loop_keys l [] d H) as (Hnd & Hkeys & Hlen);
    [constructor |].
  assert (Hiff : forall k, In k (dict_keys d) <-> exists t, In t l /\ before "=" t = k).
  { intros k; rewrite Hkeys; simpl; tauto. }
  repeat split; try apply Hiff; auto.
  intros k Hk; apply Hiff in Hk as (t & _ & <-).
  apply before_no_separator.
Qed.

Lemma parse_derivatives_arg_keys_witness :
  List.NoDup (dict_keys [("a", Path "/z"); ("b", Path "/y")])
  /\ length [("a", Path "/z"); ("b", Path "/y")] <= 3.
Proof.
  destruct (parse_derivatives_arg_keys ["a=/x"; "b=/y"; "a=/z"]
              [("a", Path "/z"); ("b", Path "/y")] eq_refl) as (H1 & _ & _ & H4).
  split; [exact H1 | exact H4].
Defined.

Lemma parse_derivatives_loop_first_invalid (l1 l2 : list string) (t : string)
    (acc : dict PyPath) :
  (forall u, In u l1 -> containsb "=" u = true) ->
  containsb "=" t = false ->
  parse_derivatives_loop (l1 ++ t :: l2) acc
  = Err (ValueError (invalid_derivatives_msg t)).
Proof.
  intros Hl1 Ht; revert acc.
  induction l1 as [|u l1 IH]; intros acc.
  - simpl; rewrite Ht; reflexivity.
  - rewrite <- app_comm_cons; cbn [parse_derivatives_loop].
    rewrite (Hl1 u (or_introl eq_refl)); cbn [negb].
    destruct (after_of_contains _ _ (Hl1 u (or_introl eq_refl))) as [r Hr].
    unfold split1; rewrite Hr.
    apply IH; intros u' Hu'; apply Hl1; now right.
Qed.

(** X3. The loop stops at the first token without [=]: the error names
    that token, whatever the tokens after it are, and no dictionary is
    returned for the tokens before it. *)
Theorem parse_derivatives_arg_first_invalid (l1 l2 : list string) (t : string) :
  (forall u, In u l1 -> containsb "=" u = true) ->
  containsb "=" t = false ->
  parse_derivatives_arg (l1 ++ t :: l2)
  = Err (ValueError (invalid_derivatives_msg t)).
Proof.
  intros Hl1 Ht.
  rewrite parse_derivatives_arg_loop.
  apply parse_derivatives_loop_first_invalid; assumption.
Qed.

Lemma parse_derivatives_arg_first_invalid_witness :
  parse_derivatives_arg ["a=/x"; "bad"; "worse"; "b=/y"]
  = Err (ValueError (invalid_derivatives_msg "bad")).
Proof.
  apply (parse_derivatives_arg_first_invalid ["a=/x"] ["worse"; "b=/y"] "bad").
  - intros u [<- | []]; reflexivity.
  - reflexivity.
Defined.

(** Only the members of [seen] matter to [first_occurrences]. *)
Lemma first_occurrences_ext (seen seen' l : list string) :
  (forall x, In x seen <-> In x seen') ->
  first_occurrences seen l = first_occurrences seen' l.
Proof.
  revert seen seen'; induction l as [|x l IH]; intros seen seen' H; simpl;
    [reflexivity |].
  assert (E : existsb (String.eqb x) seen = existsb (String.eqb x) seen').
  { apply eq_true_iff_eq; rewrite !existsb_exists; split;
      intros (y & Hy & Hxy); exists y; split; auto; apply H, Hy. }
  rewrite E; destruct (existsb (String.eqb x) seen').
  - apply IH, H.
  - f_equal; apply IH; intros y; simpl; rewrite H; tauto.
Qed.

Lemma existsb_eqb_in (x : string) (l : list string) :
  existsb (String.eqb x) l = true <-> In x l.
Proof.
  rewrite existsb_exists; split.
  - intros (y & Hy & E); apply String.eqb_eq in E; now subst.
  - intros H; exists x; split; [exact H | apply String.eqb_refl].
Qed.

Lemma parse_derivatives_loop_order (l : list string) (acc d : dict PyPath) :
  parse_derivatives_loop l acc = Ok d ->
  dict_keys d
  = dict_keys acc ++ first_occurrences (dict_keys acc) (map (before "=") l).
Proof.
  revert acc; induction l as [|t l IH]; intros acc H.
  - injection H as <-; simpl; now rewrite app_nil_r.
  - destruct (parse_derivatives_loop_cons _ _ _ _ H) as (r & Hr & Hl).
    rewrite (IH _ Hl), dict_keys_set; cbn [map first_occurrences].
    destruct (dict_get (before "=" t) acc) eqn:E.
    + assert (Hin : In (before "=" t) (dict_keys acc))
        by (apply dict_get_Some_keys; rewrite E; eauto).
      apply existsb_eqb_in in Hin; rewrite Hin; reflexivity.
    + apply dict_get_None_keys in E.
      destruct (existsb (String.eqb (before "=" t)) (dict_keys acc)) eqn:Ex.
      { apply existsb_eqb_in in Ex; contradiction. }
      rewrite <- app_assoc; simpl; do 2 f_equal.
      apply first_occurrences_ext; intros x.
      rewrite in_app_iff; simpl; tauto.
Qed.

(** X4. The keys of the returned dictionary stand in the order in which
    the names first occur among the tokens: a later token of a name
    already met changes the path of that name, not its place. *)
Theorem parse_derivatives_arg_key_order (l : list string) (d : dict PyPath) :
  parse_derivatives_arg l = Ok d ->
  dict_keys d = first_occurrences [] (map (before "=") l).
Proof.
  rewrite parse_derivatives_arg_loop; intros H.
  exact (parse_derivatives_loop_order l [] d H).
Qed.

Lemma parse_derivatives_arg_key_order_witness :
  dict_keys [("b", Path "/3"); ("a", Path "/2")] = ["b"; "a"].
Proof.
  exact (parse_derivatives_arg_key_order ["b=/1"; "a=/2"; "b=/3"]
           [("b", Path "/3"); ("a", Path "/2")] eq_refl).
Defined.

(** ** [main] of [cli_template.py] *)

Lemma parse_derivatives_arg_ok (l : list string) :
  (forall t, In t l -> containsb "=" t = true) ->
  exists d, parse_derivatives_arg l = Ok d.
Proof.
  rewrite parse_derivatives_arg_loop; apply parse_derivatives_loop_ok.
Qed.

Lemma parse_derivatives_arg_err (l : list string) (e : pyerror) :
  parse_derivatives_arg l = Err e ->
  exists t, In t l /\ containsb "=" t = false.
Proof.
  rewrite parse_derivatives_arg_loop; intros H.
  destruct (parse_derivatives_loop_err _ _ _ H) as (t & Hin & Ht & _); eauto.
Qed.

Lemma parse_derivatives_arg_invalid (l : list string) (t : string) :
  In t l -> containsb "=" t = false ->
  exists e, parse_derivatives_arg l = Err e.
Proof.
  intros Hin Ht.
  apply in_split in Hin as (l1 & l2 & ->).
  rewrite parse_derivatives_arg_loop.
  generalize (@nil (string * PyPath)) as acc.
  induction l1 as [|u l1 IH]; intros acc.
  - simpl; rewrite Ht; simpl; eauto.
  - rewrite <- app_comm_cons; cbn [parse_derivatives_loop].
    destruct (containsb "=" u) eqn:Eu; cbn [negb]; [| eauto].
    destruct (after_of_contains _ _ Eu) as [r Hr].
    unfold split1; rewrite Hr; apply IH.
Qed.

(** X5. [main] ends with status 0 exactly when every derivatives token
    holds a [=] and the analysis level is [participant], and with
    status 1 otherwise.  With status 0 it printed four lines, all to the
    standard output; with status 1 one line, to the standard error. *)
Theorem cli_main_exit_status (args : cli_args) :
  (snd (cli_main args) = 0
   <-> (forall t, In t (derivative_tokens args) -> containsb "=" t = true)
       /\ analysis_level args = "participant")
  /\ (snd (cli_main args) = 0
      /\ fst (cli_main args)
         = [ (Stdout, "Analysis pipeline would run here");
             (Stdout, "  Input: " +:+ path_str (input_dir args));
             (Stdout, "  Output: " +:+ path_str (output_dir args));
             (Stdout, "  Level: participant") ]
      \/ snd (cli_main args) = 1
         /\ exists line, fst (cli_main args) = [(Stderr, line)]).
Proof.
  unfold cli_main, derivative_tokens.
  destruct (derivatives args) as [[|t0 l]|] eqn:Ed.
  - destruct (String.eqb_spec (analysis_level args) "participant") as [E | Hne]; simpl.
    + rewrite E; split; [| left; auto].
      split; [intros _; split; [intros t [] | reflexivity] | reflexivity].
    + split; [| right; eauto].
      split; [discriminate | intros [_ E]; contradiction].
  - destruct (parse_derivatives_arg (t0 :: l)) as [d | e] eqn:Ep; cbn [bind].
    + assert (Hall : forall t, In t (t0 :: l) -> containsb "=" t = true).
      { intros t Hin; destruct (containsb "=" t) eqn:Et; [reflexivity |].
        destruct (parse_derivatives_arg_invalid (t0 :: l) t Hin Et) as [e He].
        congruence. }
      destruct (String.eqb_spec (analysis_level args) "participant") as [E | Hne];
        cbn [fst snd].
      * rewrite E; split; [| left; auto].
        split; [intros _; split; [exact Hall | reflexivity] | reflexivity].
      * split; [| right; eauto].
        split; [discriminate | intros [_ E]; contradiction].
    + cbn [fst snd]; split; [| right; eauto].
      split; [discriminate |].
      intros [Hall _].
      destruct (parse_derivatives_arg_ok _ Hall) as [d Hd]; congruence.
  - destruct (String.eqb_spec (analysis_level args) "participant") as [E | Hne]; simpl.
    + rewrite E; split; [| left; auto].
      split; [intros _; split; [intros t [] | reflexivity] | reflexivity].
    + split; [| right; eauto].
      split; [discriminate | intros [_ E]; contradiction].
Qed.

(** X6. A derivatives token without [=] makes [main] print one line to
    the standard error, the word [Error] followed by the message that
    names the first such token, and end with status 1, whatever the
    analysis level and the other arguments are: nothing goes to the
    standard output. *)
Theorem cli_main_invalid_derivative (args : cli_args) (l1 l2 : list string) (t : string) :
  derivatives args = Some (l1 ++ t :: l2) ->
  (forall u, In u l1 -> containsb "=" u = true) ->
  containsb "=" t = false ->
  cli_main args
  = ([(Stderr, "Error: Invalid derivatives argument: " +:+ t
               +:+ ". Expected format: name=path (e.g., preprocessed=/path/to/data)")],
     1).
Proof.
  intros Hd Hl1 Ht.
  assert (Hp : parse_derivatives_arg (l1 ++ t :: l2)
               = Err (ValueError (invalid_derivatives_msg t))).
  { rewrite parse_derivatives_arg_loop.
    apply parse_derivatives_loop_first_invalid; assumption. }
  unfold cli_main; rewrite Hd.
  destruct (l1 ++ t :: l2) as [|x l] eqn:El.
  { destruct l1; discriminate. }
  rewrite Hp; reflexivity.
Qed.

Lemma cli_main_invalid_derivative_witness :
  cli_main {| input_dir := Path "/data/bids"; output_dir := Path "/data/out";
              analysis_level := "participant";
              derivatives := Some ["fmriprep=/d/fmriprep"; "bad"] |}
  = ([(Stderr, "Error: Invalid derivatives argument: bad. Expected format: name=path (e.g., preprocessed=/path/to/data)")],
     1).
Proof.
  apply (cli_main_invalid_derivative _ ["fmriprep=/d/fmriprep"] [] "bad").
  - reflexivity.
  - intros u [<- | []]; reflexivity.
  - reflexivity.
Defined.

(** X7. [main] does nothing with the dictionary it parsed: when every
    token holds a [=], what it prints and its status are those of the
    call without any derivatives option. *)
Theorem cli_main_ignores_derivatives (args : cli_args) :
  (forall t, In t (derivative_tokens args) -> containsb "=" t = true) ->
  cli_main args
  = cli_main {| input_dir := input_dir args; output_dir := output_dir args;
                analysis_level := analysis_level args; derivatives := None |}.
Proof.
  unfold derivative_tokens, cli_main; cbn [derivatives analysis_level input_dir output_dir].
  destruct (derivatives args) as [[|t0 l]|]; intros Hall; try reflexivity.
  destruct (parse_derivatives_arg_ok _ Hall) as [d ->]; reflexivity.
Qed.

Lemma cli_main_ignores_derivatives_witness :
  cli_main {| input_dir := Path "/data/bids"; output_dir := Path "/data/out";
              analysis_level := "participant";
              derivatives := Some ["fmriprep=/d/fmriprep"] |}
  = cli_main {| input_dir := Path "/data/bids"; output_dir := Path "/data/out";
                analysis_level := "participant"; derivatives := None |}.
Proof.
  apply (cli_main_ignores_derivatives
           {| input_dir := Path "/data/bids"; output_dir := Path "/data/out";
              analysis_level := "participant";
              derivatives := Some ["fmriprep=/d/fmriprep"] |}).
  intros t [<- | []]; reflexivity.
Defined.

(** ** The palette, continued *)

Section DictUpdate.
Context {V : Type}.
Implicit Types (d other : dict V) (k : string).

(** After [d.update(other)] a key of [other] has the value of [other],
    any other key the value it had. *)
Lemma dict_update_get k d other :
  List.NoDup (dict_keys other) ->
  dict_get k (dict_update d other)
  = match dict_get k other with
    | Some v => Some v
    | None => dict_get k d
    end.
Proof.
  unfold dict_update, dict_keys; revert d.
  induction other as [|[k0 v0] other IH]; intros d Hnd; simpl; [reflexivity |].
  inversion Hnd as [| ? ? Hk0 Hrest]; subst.
  rewrite (IH _ Hrest).
  destruct (String.eqb_spec k0 k) as [-> | Hne].
  - assert (E : dict_get k other = None) by (apply dict_get_None_keys, Hk0).
    rewrite E; apply dict_get_set_eq.
  - destruct (dict_get k other); [reflexivity |].
    now apply dict_get_set_ne.
Qed.

(** The keys of [d] keep their places; the new keys follow, in the
    order of [other]. *)
Lemma dict_update_keys d other :
  dict_keys (dict_update d other)
  = dict_keys d ++ first_occurrences (dict_keys d) (dict_keys other).
Proof.
  unfold dict_update; revert d.
  induction other as [|[k0 v0] other IH]; intros d; simpl.
  - now rewrite app_nil_r.
  - rewrite IH, dict_keys_set.
    destruct (dict_get k0 d) eqn:E.
    + assert (Hin : In k0 (dict_keys d))
        by (apply dict_get_Some_keys; rewrite E; eauto).
      apply existsb_eqb_in in Hin; rewrite Hin; reflexivity.
    + apply dict_get_None_keys in E.
      destruct (existsb (String.eqb k0) (dict_keys d)) eqn:Ex.
      { apply existsb_eqb_in in Ex; contradiction. }
      rewrite <- app_assoc; simpl; do 2 f_equal.
      apply first_occurrences_ext; intros x.
      rewrite in_app_iff; simpl; tauto.
Qed.
End DictUpdate.

(** X8. The override takes precedence key by key: in the merged palette
    a key of the override dictionary has the value of the override,
    every other key the value of the palette of the theme; the keys of
    the palette keep their order and the keys that only the override
    has follow them. *)
Theorem merge_colors_precedence (theme : string) (c : loc) (h : heap)
    (other : dict pyval) :
  h !! c = Some other ->
  List.NoDup (dict_keys other) ->
  (forall k,
      dict_get k (merge_colors theme (Some c) h)
      = match dict_get k other with
        | Some v => Some v
        | None => dict_get k (build_color_scheme theme)
        end)
  /\ dict_keys (merge_colors theme (Some c) h)
     = dict_keys (build_color_scheme theme)
       ++ first_occurrences (dict_keys (build_color_scheme theme)) (dict_keys other).
Proof.
  intros Hc Hnd; unfold merge_colors, deref; rewrite Hc; cbn [default from_option id].
  destruct other as [|e other].
  - split; [reflexivity | simpl; now rewrite app_nil_r].
  - split; [intros k; apply dict_update_get, Hnd | apply dict_update_keys].
Qed.

Lemma merge_colors_precedence_witness :
  dict_get "accent_color"
    (merge_colors "dark" (Some 0)
       {[ 0 := [("accent_color", PStr "#0066cc"); ("logo", PStr "acme.png")] ]})
  = Some (PStr "#0066cc").
Proof.
  refine (proj1 (merge_colors_precedence "dark" 0
                   {[ 0 := [("accent_color", PStr "#0066cc"); ("logo", PStr "acme.png")] ]}
                   [("accent_color", PStr "#0066cc"); ("logo", PStr "acme.png")] _ _)
            "accent_color").
  - reflexivity.
  - unfold dict_keys; simpl; repeat constructor; simpl; intuition discriminate.
Defined.

(** Substitution reads the dictionary at the fields of the template
    only. *)
Lemma render_ext (kwargs kwargs' : dict pyval) (segs : list segment) :
  (forall k, In k (segment_fields segs) -> dict_get k kwargs = dict_get k kwargs') ->
  render kwargs segs = render kwargs' segs.
Proof.
  induction segs as [|[c | name] segs IH]; simpl; intros H.
  - reflexivity.
  - now rewrite IH.
  - rewrite <- (H name (or_introl eq_refl)).
    destruct (dict_get name kwargs); [| reflexivity].
    rewrite IH; [reflexivity |].
    intros k Hk; apply H; now right.
Qed.

Lemma format_ext (s : string) (kwargs kwargs' : dict pyval) :
  well_formed s = true ->
  (forall k, In k (template_fields s) -> dict_get k kwargs = dict_get k kwargs') ->
  format s kwargs = format s kwargs'.
Proof.
  unfold well_formed, template_fields.
  destruct (parse_from None s) as [segs|] eqn:E; [| discriminate].
  intros _ H.
  rewrite !(format_render _ _ _ E); apply render_ext, H.
Qed.

(** X9. The style sheet depends on the merged palette through the
    twenty keys the template refers to and through nothing else: two
    palettes that agree on these keys give the same style sheet, so a
    key of the override that the template does not use changes
    nothing. *)
Theorem style_sheet_reads_referenced_keys (colors colors' : dict pyval) :
  (forall k, In k css_keys -> dict_get k colors = dict_get k colors') ->
  format DEFAULT_CSS colors = format DEFAULT_CSS colors'.
Proof.
  intros H; apply format_ext; [exact DEFAULT_CSS_well_formed |].
  intros k Hk; apply H.
  exact (proj1 (css_keys_fields k) Hk).
Qed.

Lemma style_sheet_reads_referenced_keys_witness :
  format DEFAULT_CSS (dict_update dark_scheme [("logo", PStr "acme.png")])
  = format DEFAULT_CSS dark_scheme.
Proof.
  apply style_sheet_reads_referenced_keys.
  intros k Hk; unfold css_keys in Hk; simpl in Hk.
  repeat (destruct Hk as [<- | Hk]; [reflexivity |]); destruct Hk.
Defined.

Lemma scheme_keys_NoDup : List.NoDup (dict_keys light_scheme).
Proof.
  apply NoDup_ListNoDup.
  refine (@bool_decide_unpack _ (NoDup_dec _) _).
  vm_compute; exact I.
Qed.

Lemma scheme_keys_css_keys (k : string) :
  In k (dict_keys light_scheme) <-> In k css_keys.
Proof.
  unfold css_keys, dict_keys; simpl; tauto.
Qed.

(** X10. The three palettes are defined on the same keys, in the same
    order, each key once, and these keys are the ones the style sheet
    template refers to: no palette lacks a key of the template and none
    has a key the template ignores.  Every value is a non-empty
    string. *)
Theorem palettes_define_referenced_keys (theme : string) :
  dict_keys (build_color_scheme theme) = dict_keys light_scheme
  /\ List.NoDup (dict_keys (build_color_scheme theme))
  /\ (forall k, In k (dict_keys (build_color_scheme theme))
        <-> In k (template_fields DEFAULT_CSS))
  /\ List.Forall (fun entry => exists s, snd entry = PStr s /\ s <> "")
       (build_color_scheme theme).
Proof.
  assert (Hkeys : dict_keys (build_color_scheme theme) = dict_keys light_scheme).
  { destruct (build_color_scheme_cases theme) as [-> | [-> | ->]]; reflexivity. }
  split; [exact Hkeys |].
  split; [rewrite Hkeys; exact scheme_keys_NoDup |].
  split.
  - intros k; rewrite Hkeys.
    split; intros Hk.
    + exact (proj2 (css_keys_fields k) (proj1 (scheme_keys_css_keys k) Hk)).
    + exact (proj2 (scheme_keys_css_keys k) (proj1 (css_keys_fields k) Hk)).
  - destruct (build_color_scheme_cases theme) as [-> | [-> | ->]];
      repeat constructor; eexists; (split; [reflexivity | discriminate]).
Qed.

(** ** The header, continued *)

Lemma metadata_items_app (d1 d2 : dict pyval) :
  metadata_items (d1 ++ d2) = metadata_items d1 ++ metadata_items d2.
Proof.
  induction d1 as [|[k v] d1 IH]; simpl; [reflexivity |].
  destruct (truthy v); simpl; now rewrite IH.
Qed.

Lemma metadata_items_filter (d : dict pyval) :
  metadata_items (List.filter (fun entry => truthy (snd entry)) d) = metadata_items d.
Proof.
  induction d as [|[k v] d IH]; [reflexivity |].
  cbn [List.filter snd metadata_items].
  destruct (truthy v) eqn:E; cbn [metadata_items]; rewrite ?E, IH; reflexivity.
Qed.

(** The header is a function of the items it shows. *)
Lemma generate_header_items (title : string) (description : option string)
    (d d' : dict pyval) :
  metadata_items d = metadata_items d' ->
  generate_header title description d = generate_header title description d'.
Proof.
  intros E; unfold generate_header.
  destruct d as [|e d], d' as [|e' d']; try reflexivity.
  - rewrite <- E; reflexivity.
  - rewrite E; reflexivity.
  - rewrite E; reflexivity.
Qed.

(** X11. The header shows the metadata entries whose value is true and
    drops the others (an empty string, zero, [False], [None]): it is the
    header of the dictionary without them, and when no value is true
    the header has no metadata block at all, as for an empty
    dictionary. *)
Theorem generate_header_drops_false_values :
  (forall (title : string) (description : option string) (d : dict pyval),
      generate_header title description d
      = generate_header title description
          (List.filter (fun entry => truthy (snd entry)) d))
  /\ (forall (title : string) (description : option string) (d : dict pyval),
        (forall entry, In entry d -> truthy (snd entry) = false) ->
        generate_header title description d = generate_header title description [])
  /\ truthy (PStr "") = false /\ truthy (PInt 0) = false
  /\ truthy (PBool false) = false /\ truthy PNone = false.
Proof.
  split; [| split; [| repeat split]].
  - intros; apply generate_header_items; symmetry; apply metadata_items_filter.
  - intros title description d H; apply generate_header_items.
    induction d as [|[k v] d IH]; [reflexivity |].
    cbn [metadata_items].
    pose proof (H (k, v) (or_introl eq_refl)) as Hv; cbn [snd] in Hv.
    rewrite Hv.
    apply IH; intros e He; apply H; now right.
Qed.

Lemma generate_header_drops_false_values_witness :
  generate_header "Report" None [("Date", PStr ""); ("Runs", PInt 0); ("QC", PNone)]
  = generate_header "Report" None [].
Proof.
  apply (proj1 (proj2 generate_header_drops_false_values)).
  intros entry [<- | [<- | [<- | []]]]; reflexivity.
Defined.

(** X12. When the metadata dictionary of the caller has no [Author]
    key, a non-empty author becomes its last entry and the last item
    the header shows; when it has one, the keys and their order stay as
    they were.  The page holds the header of that dictionary. *)
Theorem author_entry_position (now : datetime) (title : string)
    (description : option string) (sections : option (list string))
    (theme : string) (a : string) (tags : option (list string))
    (m : loc) (custom_colors : option loc) (h : heap) (d : dict pyval) :
  a <> "" ->
  h !! m = Some d ->
  let r := generate_html_report now title description sections theme (Some a) tags
             (Some m) custom_colors h in
  exists d',
    snd r !! m = Some d'
    /\ (dict_get "Author" d = None ->
        d' = d ++ [("Author", PStr a)]
        /\ metadata_items d' = metadata_items d ++ [metadata_item "Author" (PStr a)])
    /\ (is_Some (dict_get "Author" d) -> dict_keys d' = dict_keys d)
    /\ exists html,
         fst r = Ok html /\ contains (generate_header title description d') html.
Proof.
  intros Ha Hm r.
  assert (Hne : String.eqb a "" = false) by (apply String.eqb_neq, Ha).
  exists (dict_set "Author" (PStr a) d).
  split.
  { subst r; rewrite generate_html_report_eq; cbn [snd].
    rewrite (call_store_lookup _ _ _ _ _ Hm).
    destruct (decide (Some m = Some m)); [| contradiction].
    simpl; rewrite Hne; reflexivity. }
  split.
  { intros Hnone; rewrite (dict_set_fresh _ _ _ Hnone).
    split; [reflexivity |].
    rewrite metadata_items_app; simpl; rewrite Hne; reflexivity. }
  split.
  { intros [v Hv]; rewrite dict_keys_set, Hv; reflexivity. }
  destruct (generate_html_report_ok now title description sections theme (Some a) tags
              (Some m) custom_colors h) as [html Hhtml].
  exists html; split; [exact Hhtml |].
  rewrite generate_html_report_eq in Hhtml; cbn [fst] in Hhtml.
  assert (Hentry : author_entry (Some a) (initial_metadata (Some m) h)
                   = dict_set "Author" (PStr a) d).
  { simpl; unfold deref; rewrite Hm, Hne; reflexivity. }
  rewrite Hentry in Hhtml.
  destruct (format DEFAULT_CSS _) as [css | e]; cbn [bind] in Hhtml; [| discriminate].
  apply format_page_contains in Hhtml; tauto.
Qed.

Lemma author_entry_position_witness :
  exists d',
    snd (generate_html_report sample_now "Report" None None "light" (Some "Ada") None
           (Some 0) None {[ 0 := [("Date", PStr "2024-01-15")] ]}) !! 0 = Some d'
    /\ (dict_get "Author" [("Date", PStr "2024-01-15")] = None ->
        d' = [("Date", PStr "2024-01-15")] ++ [("Author", PStr "Ada")]
        /\ metadata_items d'
           = metadata_items [("Date", PStr "2024-01-15")]
             ++ [metadata_item "Author" (PStr "Ada")]).
Proof.
  destruct (author_entry_position sample_now "Report" None None "light" "Ada" None 0
              None {[ 0 := [("Date", PStr "2024-01-15")] ]}
              [("Date", PStr "2024-01-15")]) as (d' & H1 & H2 & _).
  - discriminate.
  - reflexivity.
  - exists d'; split; [exact H1 | exact H2].
Defined.

(** ** Fields in their context *)

Lemma segment_eqb_eq (a b : segment) : segment_eqb a b = true -> a = b.
Proof.
  destruct a as [c | n], b as [c' | n']; simpl; try discriminate.
  - intros H; apply Ascii.eqb_eq in H; now subst.
  - intros H; apply String.eqb_eq in H; now subst.
Qed.

Lemma seg_prefixb_true (pat segs : list segment) :
  seg_prefixb pat segs = true -> exists post, segs = pat ++ post.
Proof.
  revert segs; induction pat as [|a pat IH]; intros segs H.
  - exists segs; reflexivity.
  - destruct segs as [|b segs]; simpl in H; [discriminate |].
    apply andb_true_iff in H as [Hab Hp].
    apply segment_eqb_eq in Hab; subst b.
    destruct (IH _ Hp) as [post ->].
    exists post; reflexivity.
Qed.

Lemma seg_containsb_true (pat segs : list segment) :
  seg_containsb pat segs = true -> exists pre post, segs = pre ++ pat ++ post.
Proof.
  induction segs as [|b segs IH]; simpl; intros H.
  - rewrite orb_false_r in H.
    destruct (seg_prefixb_true _ _ H) as [post Hp].
    exists [], post; exact Hp.
  - apply orb_true_iff in H as [H | H].
    + destruct (seg_prefixb_true _ _ H) as [post Hp].
      exists [], post; exact Hp.
    + destruct (IH H) as (pre & post & ->).
      exists (b :: pre), post; reflexivity.
Qed.

Lemma render_lit (kwargs : dict pyval) (s : string) : render kwargs (lit s) = Ok s.
Proof.
  induction s as [|c s IH]; simpl; [reflexivity | now rewrite IH].
Qed.

Lemma render_app_ok (kwargs : dict pyval) (s1 s2 : list segment) (out : string) :
  render kwargs (s1 ++ s2) = Ok out ->
  exists o1 o2, render kwargs s1 = Ok o1 /\ render kwargs s2 = Ok o2
    /\ out = o1 +:+ o2.
Proof.
  revert out; induction s1 as [|[c | name] s1 IH]; simpl; intros out H.
  - exists "", out; auto.
  - destruct (render kwargs (s1 ++ s2)) as [t | e] eqn:E; simpl in H; [| discriminate].
    injection H as <-.
    destruct (IH t eq_refl) as (o1 & o2 & -> & H2 & ->).
    exists (String c o1), o2; auto.
  - destruct (dict_get name kwargs) as [v|]; [| discriminate].
    destruct (render kwargs (s1 ++ s2)) as [t | e] eqn:E; simpl in H; [| discriminate].
    injection H as <-.
    destruct (IH t eq_refl) as (o1 & o2 & -> & H2 & ->).
    exists (py_str v +:+ o1), o2; simpl; rewrite str_app_assoc; auto.
Qed.

(** The value of a field stands in the output between the literal texts
    that surround the field in the template. *)
Lemma format_field_in_context (s : string) (kwargs : dict pyval)
    (a k b : string) (v : pyval) (out : string) :
  format s kwargs = Ok out ->
  template_has s a k b = true ->
  dict_get k kwargs = Some v ->
  contains (a +:+ py_str v +:+ b) out.
Proof.
  unfold template_has.
  destruct (parse_from None s) as [segs|] eqn:E; [| discriminate].
  rewrite (format_render _ _ _ E); intros Hout Hhas Hk.
  destruct (seg_containsb_true _ _ Hhas) as (pre & post & ->).
  apply render_app_ok in Hout as (o1 & o2 & _ & H2 & ->).
  apply render_app_ok in H2 as (m & o3 & Hm & _ & ->).
  unfold field_in_context in Hm.
  apply render_app_ok in Hm as (ma & mb & Ha & Hb & ->).
  rewrite render_lit in Ha; injection Ha as <-.
  simpl in Hb; rewrite Hk, render_lit in Hb; simpl in Hb; injection Hb as <-.
  apply contains_app_r, contains_app_l, contains_refl.
Qed.

Lemma HTML_TEMPLATE_title_field :
  template_has HTML_TEMPLATE "<title>" "title" "</title>" = true.
Proof. vm_compute; reflexivity. Qed.

Lemma HTML_TEMPLATE_author_field :
  template_has HTML_TEMPLATE
    ("<meta name=" +:+ q "author" +:+ " content=" +:+ dq) "author" (dq +:+ ">")
  = true.
Proof. vm_compute; reflexivity. Qed.

Lemma HTML_TEMPLATE_description_field :
  template_has HTML_TEMPLATE
    ("<meta name=" +:+ q "description" +:+ " content=" +:+ dq) "description"
    (dq +:+ ">")
  = true.
Proof. vm_compute; reflexivity. Qed.

(** X13. The texts of the caller reach the page as they are, without
    any escaping: for every title, markup included, the page holds the
    title between the [title] tags and between the [h1] tags of the
    header; the [meta] elements hold the author and the description, or
    [Analysis Pipeline] and [Generated analysis report] when these are
    absent or empty. *)
Theorem page_interpolates_texts_verbatim (now : datetime) (title : string)
    (description : option string) (sections : option (list string))
    (theme : string) (author : option string) (tags : option (list string))
    (metadata custom_colors : option loc) (h : heap) :
  exists html,
    fst (generate_html_report now title description sections theme author tags
           metadata custom_colors h) = Ok html
    /\ contains ("<title>" +:+ title +:+ "</title>") html
    /\ contains ("<h1>" +:+ title +:+ "</h1>") html
    /\ contains (("<meta name=" +:+ q "author" +:+ " content=" +:+ dq)
                 +:+ str_or author "Analysis Pipeline" +:+ (dq +:+ ">")) html
    /\ contains (("<meta name=" +:+ q "description" +:+ " content=" +:+ dq)
                 +:+ str_or description "Generated analysis report"
                 +:+ (dq +:+ ">")) html.
Proof.
  destruct (generate_html_report_ok now title description sections theme author tags
              metadata custom_colors h) as [html Hhtml].
  exists html; split; [exact Hhtml |].
  rewrite generate_html_report_eq in Hhtml; cbn [fst] in Hhtml.
  destruct (format DEFAULT_CSS _) as [css | e]; cbn [bind] in Hhtml; [| discriminate].
  pose proof (fun a k b v Hhas Hk =>
                format_field_in_context _ _ a k b (PStr v) _ Hhtml Hhas Hk) as F.
  cbn [py_str] in F.
  split; [apply (F _ "title" _ _ HTML_TEMPLATE_title_field); reflexivity |].
  split.
  { apply format_page_contains in Hhtml as (_ & _ & _ & _ & Hh & _).
    refine (contains_trans _ _ _ _ Hh).
    unfold generate_header.
    exists "
    <header>
        "; eexists.
    rewrite !str_app_assoc; reflexivity. }
  split; [apply (F _ "author" _ _ HTML_TEMPLATE_author_field); reflexivity |].
  apply (F _ "description" _ _ HTML_TEMPLATE_description_field); reflexivity.
Qed.

(** ** Sections, navigation, tags and the clock *)

Lemma to_lower_idem (c : ascii) : to_lower (to_lower c) = to_lower c.
Proof.
  destruct c as [[] [] [] [] [] [] [] []]; reflexivity.
Qed.

Lemma str_lower_idem (s : string) : str_lower (str_lower s) = str_lower s.
Proof.
  induction s as [|c s IH]; simpl; [reflexivity |].
  now rewrite to_lower_idem, IH.
Qed.

Lemma format_run (s : string) (kwargs : dict pyval) (pat : list segment)
    (out : string) :
  format s kwargs = Ok out ->
  template_has_run s pat = true ->
  exists mid, render kwargs pat = Ok mid /\ contains mid out.
Proof.
  unfold template_has_run.
  destruct (parse_from None s) as [segs|] eqn:E; [| discriminate].
  rewrite (format_render _ _ _ E); intros Hout Hhas.
  destruct (seg_containsb_true _ _ Hhas) as (pre & post & ->).
  apply render_app_ok in Hout as (o1 & o2 & _ & H2 & ->).
  apply render_app_ok in H2 as (mid & o3 & Hmid & _ & ->).
  exists mid; split; [exact Hmid |].
  apply contains_app_r, contains_app_l, contains_refl.
Qed.

Lemma HTML_TEMPLATE_body_run : template_has_run HTML_TEMPLATE body_run = true.
Proof. vm_compute; reflexivity. Qed.

Lemma render_body_run
    (title author description css header nav main footer : string) :
  render (page_kwargs title author description css header nav main footer) body_run
  = Ok (header +:+ body_indent +:+ nav +:+ body_indent +:+ main +:+ body_indent
        +:+ footer).
Proof.
  unfold body_run, body_indent; cbn.
  rewrite str_app_nil_r; reflexivity.
Qed.

(** The body of every page: the four fragments in the order and the
    layout of the template. *)
Lemma format_page_body
    (title author description css header nav main footer html : string) :
  format HTML_TEMPLATE
    (page_kwargs title author description css header nav main footer) = Ok html ->
  contains (header +:+ body_indent +:+ nav +:+ body_indent +:+ main +:+ body_indent
            +:+ footer) html.
Proof.
  intros H.
  destruct (format_run _ _ _ _ H HTML_TEMPLATE_body_run) as (mid & Hmid & Hc).
  rewrite render_body_run in Hmid; injection Hmid as <-; exact Hc.
Qed.

(** X14. With the empty list of sections (which, unlike [None], is not
    replaced by the default list) the renderer still returns a page.
    In its body the header, a navigation block without any item and the
    footer follow one another with nothing but the line breaks and the
    indentation of the template between them: no section is rendered
    between the navigation block and the footer. *)
Theorem empty_sections_give_a_shell (now : datetime) (title : string)
    (description : option string) (theme : string) (author : option string)
    (tags : option (list string)) (metadata custom_colors : option loc) (h : heap) :
  exists html,
    fst (generate_html_report now title description (Some []) theme author tags
           metadata custom_colors h) = Ok html
    /\ contains
         (generate_header title description
            (author_entry author (initial_metadata metadata h))
          +:+ body_indent
          +:+ ("
    <nav>
        <ul>
            " +:+ "
        </ul>
    </nav>
    ")
          +:+ body_indent
          +:+ body_indent
          +:+ generate_footer now tags) html
    /\ contains (generate_navigation []) html
    /\ contains (generate_header title description
                   (author_entry author (initial_metadata metadata h))) html
    /\ contains (generate_footer now tags) html.
Proof.
  destruct (generate_html_report_ok now title description (Some []) theme author tags
              metadata custom_colors h) as [html Hhtml].
  exists html; split; [exact Hhtml |].
  rewrite generate_html_report_eq in Hhtml; cbn [fst] in Hhtml.
  destruct (format DEFAULT_CSS _) as [css | e]; cbn [bind] in Hhtml; [| discriminate].
  split; [exact (format_page_body _ _ _ _ _ _ _ _ _ Hhtml) |].
  apply format_page_contains in Hhtml; tauto.
Qed.

(** X15. Section names are matched without regard to case: a name and
    its lower-case form give the same fragment, and the [id] of the
    section element is the lower-case form.  The navigation link of the
    name points to the name as written, so that link and element agree
    only for a name in lower case. *)
Theorem section_names_ignore_case :
  (forall (now : datetime) (section_name : string),
      generate_section_placeholder now section_name
      = generate_section_placeholder now (str_lower section_name))
  /\ (forall (now : datetime) (section_name : string),
        In (str_lower section_name) recognized_sections ->
        prefixb ("
    <section id=" +:+ q (str_lower section_name))
          (generate_section_placeholder now section_name) = true)
  /\ (forall section_name : string,
        contains ("<a href=" +:+ q ("#" +:+ section_name) +:+ ">")
          (nav_item section_name)).
Proof.
  split; [| split].
  - intros; unfold generate_section_placeholder.
    now rewrite str_lower_idem.
  - intros now section_name Hin.
    unfold generate_section_placeholder.
    simpl in Hin; destruct Hin as [E | [E | [E | [E | [E | []]]]]];
      rewrite <- E; reflexivity.
  - intros section_name; unfold nav_item.
    exists "<li>", (str_title section_name +:+ "</a></li>").
    unfold q; rewrite !str_app_assoc; reflexivity.
Qed.

Lemma section_names_ignore_case_witness :
  prefixb ("
    <section id=" +:+ q (str_lower "Quality"))
    (generate_section_placeholder sample_now "Quality") = true.
Proof.
  apply (proj1 (proj2 section_names_ignore_case) sample_now "Quality").
  vm_compute; auto.
Defined.

Lemma generate_navigation_contains (sections : list string) (s : string) :
  In s sections -> contains (nav_item s) (generate_navigation sections).
Proof.
  intros Hin; unfold generate_navigation.
  apply contains_app_r, contains_app_l, join_contains, in_map, Hin.
Qed.

Lemma nav_item_link_open (section : string) :
  contains (nav_link_open section) (nav_item section).
Proof.
  unfold nav_item, nav_link_open.
  exists "", (str_title section +:+ "</a></li>").
  rewrite !str_app_assoc; reflexivity.
Qed.

(** X16. The navigation block has a link for every name of the section
    list, whether the name has a fragment or not: the page holds the
    list item and the anchor that points to the name as written, and a
    name that is not recognized gets this link and no section for it to
    point to.  For a name of ASCII characters the page holds the whole
    item, with the title-cased name as link text, and when all names
    are such the block with the items in the order of the list. *)
Theorem navigation_links_every_section (now : datetime) (title : string)
    (description : option string) (sections : list string) (theme : string)
    (author : option string) (tags : option (list string))
    (metadata custom_colors : option loc) (h : heap) :
  exists html,
    fst (generate_html_report now title description (Some sections) theme author
           tags metadata custom_colors h) = Ok html
    /\ (forall s, In s sections -> contains (nav_link_open s) html)
    /\ (forall s, In s sections -> ascii_only s = true ->
          contains (nav_link_open s +:+ str_title s +:+ "</a></li>") html)
    /\ (forallb ascii_only sections = true ->
          contains ("
    <nav>
        <ul>
            " +:+ join (map nav_item sections) +:+ "
        </ul>
    </nav>
    ") html)
    /\ (forall s, In s sections -> ~ In (str_lower s) recognized_sections ->
          contains (nav_link_open s) html
          /\ generate_section_placeholder now s = "").
Proof.
  destruct (generate_html_report_ok now title description (Some sections) theme author
              tags metadata custom_colors h) as [html Hhtml].
  exists html; split; [exact Hhtml |].
  rewrite generate_html_report_eq in Hhtml; cbn [fst] in Hhtml.
  destruct (format DEFAULT_CSS _) as [css | e]; cbn [bind] in Hhtml; [| discriminate].
  apply format_page_contains in Hhtml as (_ & _ & _ & _ & _ & Hn & _).
  cbn [resolve_sections] in Hn.
  assert (Hitems : forall s, In s sections -> contains (nav_item s) html).
  { intros s Hs.
    exact (contains_trans _ _ _ (generate_navigation_contains _ _ Hs) Hn). }
  assert (Hlinks : forall s, In s sections -> contains (nav_link_open s) html).
  { intros s Hs.
    exact (contains_trans _ _ _ (nav_item_link_open s) (Hitems s Hs)). }
  split; [exact Hlinks |].
  split.
  { intros s Hs _.
    replace (nav_link_open s +:+ str_title s +:+ "</a></li>") with (nav_item s);
      [exact (Hitems s Hs) |].
    unfold nav_item, nav_link_open; rewrite !str_app_assoc; reflexivity. }
  split; [intros _; exact Hn |].
  intros s Hs Hun; split; [exact (Hlinks s Hs) |].
  apply generate_section_placeholder_unrecognized, Hun.
Qed.

Lemma generate_footer_contains (now : datetime) (t : string) (l : list string)
    (tag : string) :
  In tag (t :: l) -> contains (tag_element tag) (generate_footer now (Some (t :: l))).
Proof.
  intros Hin; unfold generate_footer.
  apply contains_app_r, contains_app_l.
  apply contains_app_r, contains_app_l.
  apply join_contains, in_map, Hin.
Qed.

(** X17. No tags and an empty list of tags give the same page; with
    tags, the page holds one chip for each tag, with the text of the tag
    as it is.  In every case the footer carries the year of the
    clock. *)
Theorem tags_in_footer (now : datetime) (title : string)
    (description : option string) (sections : option (list string))
    (theme : string) (author : option string)
    (metadata custom_colors : option loc) (h : heap) :
  generate_html_report now title description sections theme author (Some [])
    metadata custom_colors h
  = generate_html_report now title description sections theme author None
      metadata custom_colors h
  /\ forall tags : option (list string),
       exists html,
         fst (generate_html_report now title description sections theme author tags
                metadata custom_colors h) = Ok html
         /\ contains ("<p>&copy; " +:+ str_nat (year now)
                      +:+ " Analysis Report. All rights reserved.</p>") html
         /\ (forall l tag, tags = Some l -> In tag l ->
               contains ("<span class=" +:+ q "tag" +:+ ">" +:+ tag +:+ "</span>") html).
Proof.
  split; [reflexivity |].
  intros tags.
  destruct (generate_html_report_ok now title description sections theme author tags
              metadata custom_colors h) as [html Hhtml].
  exists html; split; [exact Hhtml |].
  rewrite generate_html_report_eq in Hhtml; cbn [fst] in Hhtml.
  destruct (format DEFAULT_CSS _) as [css | e]; cbn [bind] in Hhtml; [| discriminate].
  apply format_page_contains in Hhtml as (_ & _ & _ & _ & _ & _ & _ & Hf).
  split.
  { refine (contains_trans _ _ _ _ Hf).
    unfold generate_footer.
    do 2 apply contains_app_r.
    eexists "
        ", _; rewrite !str_app_assoc; simpl; reflexivity. }
  intros l tag -> Hin.
  refine (contains_trans _ _ _ _ Hf).
  destruct l as [|t l]; [destruct Hin |].
  exact (generate_footer_contains now t l tag Hin).
Qed.

Lemma generate_section_placeholder_clock (now now' : datetime) (section_name : string) :
  str_lower section_name <> "metadata" ->
  generate_section_placeholder now section_name
  = generate_section_placeholder now' section_name.
Proof.
  intros Hne; unfold generate_section_placeholder.
  repeat match goal with
  | |- context [String.eqb (str_lower section_name) ?k] =>
      destruct (String.eqb_spec (str_lower section_name) k) as [E | _];
      [try contradiction; reflexivity |]
  end.
  reflexivity.
Qed.

(** X18. The page depends on the clock through the year of the footer
    and the date of the [metadata] section only: two calls at times of
    the same year, with a section list that has no [metadata] section,
    return the same page and leave the same store. *)
Theorem page_depends_on_year_only (now now' : datetime) (title : string)
    (description : option string) (sections : option (list string))
    (theme : string) (author : option string) (tags : option (list string))
    (metadata custom_colors : option loc) (h : heap) :
  year now = year now' ->
  (forall s, In s (resolve_sections sections) -> str_lower s <> "metadata") ->
  generate_html_report now title description sections theme author tags
    metadata custom_colors h
  = generate_html_report now' title description sections theme author tags
      metadata custom_colors h.
Proof.
  intros Hyear Hsections.
  rewrite !generate_html_report_eq.
  assert (Hfooter : generate_footer now tags = generate_footer now' tags).
  { unfold generate_footer; now rewrite Hyear. }
  assert (Hmain : map (generate_section_placeholder now) (resolve_sections sections)
                  = map (generate_section_placeholder now') (resolve_sections sections)).
  { apply map_ext_in; intros s Hs.
    apply generate_section_placeholder_clock, Hsections, Hs. }
  now rewrite Hfooter, Hmain.
Qed.

Lemma page_depends_on_year_only_witness :
  generate_html_report sample_now "Report" None None "light" None None None None ∅
  = generate_html_report
      {| year := 2024; month := 12; day := 31; hour := 23; minute := 59; second := 59 |}
      "Report" None None "light" None None None None ∅.
Proof.
  apply page_depends_on_year_only.
  - reflexivity.
  - intros s [<- | [<- | [<- | []]]]; discriminate.
Defined.

(** X19. The assignment of the author does not accumulate: after a
    first call, a second call with the same author and metadata leaves
    every dictionary of the caller as the first call left it. *)
Theorem second_call_leaves_store (now now' : datetime) (title title' : string)
    (description description' : option string)
    (sections sections' : option (list string)) (theme theme' : string)
    (author : option string) (tags tags' : option (list string))
    (metadata custom_colors custom_colors' : option loc) (h : heap)
    (l : loc) (d : dict pyval) :
  h !! l = Some d ->
  let h1 := snd (generate_html_report now title description sections theme author
                   tags metadata custom_colors h) in
  let h2 := snd (generate_html_report now' title' description' sections' theme'
                   author tags' metadata custom_colors' h1) in
  h2 !! l = h1 !! l.
Proof.
  intros Hl h1 h2; subst h1 h2.
  rewrite !generate_html_report_eq; cbn [snd].
  pose proof (call_store_lookup author metadata h l d Hl) as H1.
  rewrite (call_store_lookup author metadata _ l _ H1), H1.
  destruct (decide (metadata = Some l)); [| reflexivity].
  now rewrite author_entry_idem.
Qed.

Lemma second_call_leaves_store_witness :
  snd (generate_html_report sample_now "Second" None None "dark" (Some "Ada") None
         (Some 0) None
         (snd (generate_html_report sample_now "First" None None "light" (Some "Ada")
                 None (Some 0) None {[ 0 := [("Date", PStr "2024-01-15")] ]}))) !! 0
  = snd (generate_html_report sample_now "First" None None "light" (Some "Ada")
           None (Some 0) None {[ 0 := [("Date", PStr "2024-01-15")] ]}) !! 0.
Proof.
  apply (second_call_leaves_store sample_now sample_now "First" "Second" None None
           None None "light" "dark" (Some "Ada") None None (Some 0) None None
           {[ 0 := [("Date", PStr "2024-01-15")] ]} 0 [("Date", PStr "2024-01-15")]).
  reflexivity.
Defined.
